(** * LegalDoc: document ingestion and AI-reply structuring

    A shallow embedding of [document_processor.py], [gemini_analyzer.py] and
    the analysis-update block of [app.py], together with the properties the
    specification states about them.

    Python strings are sequences of Unicode code points; they are modelled as
    lists of [N].  Everything CPython decides for ASCII code points is written
    out here; what it decides for non-ASCII code points from the Unicode
    character database (case mappings, digit values) and what the third-party
    readers and codecs compute are fields of the [Platform] class. *)

From Stdlib Require Import ZArith NArith QArith Qabs List String Ascii Lia Bool.
From stdpp Require Import base gmap strings list pretty.

Set Default Proof Using "Type".
Set Warnings "-abstract-large-number".

(** ** Python strings *)

Module PyStr.

Abbreviation pystr := (list N).

(** A source literal, character by character (literals in the source that
    are not ASCII are written with their code point instead). *)
Definition lit (s : string) : pystr :=
  map (fun a => N.of_nat (nat_of_ascii a)) (list_ascii_of_string s).

Definition str_eqb (a b : pystr) : bool := bool_decide (a = b).

(** [str.isspace] on one character: CPython's [_PyUnicode_IsWhitespace]. *)
Definition isspace (c : N) : bool :=
  ((9 <=? c) && (c <=? 13) || (28 <=? c) && (c <=? 32)
   || (c =? 133) || (c =? 160) || (c =? 5760)
   || (8192 <=? c) && (c <=? 8202)
   || (c =? 8232) || (c =? 8233) || (c =? 8239) || (c =? 8287)
   || (c =? 12288))%N.

Fixpoint dropwhile (p : N -> bool) (s : pystr) : pystr :=
  match s with
  | [] => []
  | c :: s' => if p c then dropwhile p s' else s
  end.

(** [s.lstrip()], [s.rstrip()], [s.strip()] *)
Definition lstrip (s : pystr) : pystr := dropwhile isspace s.
Definition rstrip (s : pystr) : pystr :=
  reverse (dropwhile isspace (reverse s)).
Definition strip (s : pystr) : pystr := rstrip (lstrip s).

(** [s.lstrip(chars)] *)
Definition lstrip_chars (chars : pystr) (s : pystr) : pystr :=
  dropwhile (fun c => bool_decide (c ∈ chars)) s.

(** [s.split()]: maximal runs of non-whitespace characters.  [cur] is the
    word being read. *)
Fixpoint split_ws_from (cur : pystr) (s : pystr) : list pystr :=
  match s with
  | [] => match cur with [] => [] | _ => [cur] end
  | c :: s' =>
      if isspace c
      then match cur with
           | [] => split_ws_from [] s'
           | _ => cur :: split_ws_from [] s'
           end
      else split_ws_from (cur ++ [c]) s'
  end.

Definition split (s : pystr) : list pystr := split_ws_from [] s.

(** [s.split(sep)] for a one-character separator: never empty, keeps empty
    pieces. *)
Fixpoint split_on_from (sep : N) (cur : pystr) (s : pystr) : list pystr :=
  match s with
  | [] => [cur]
  | c :: s' =>
      if (c =? sep)%N then cur :: split_on_from sep [] s'
      else split_on_from sep (cur ++ [c]) s'
  end.

Definition split_on (sep : N) (s : pystr) : list pystr := split_on_from sep [] s.

(** [sep.join(parts)] *)
Fixpoint join (sep : pystr) (parts : list pystr) : pystr :=
  match parts with
  | [] => []
  | [p] => p
  | p :: rest => p ++ sep ++ join sep rest
  end.

(** [s.startswith(prefix)] *)
Fixpoint startswith (s prefix : pystr) : bool :=
  match prefix, s with
  | [], _ => true
  | _ :: _, [] => false
  | p :: prefix', c :: s' => (c =? p)%N && startswith s' prefix'
  end.

(** [needle in hay] *)
Fixpoint contains (needle hay : pystr) : bool :=
  startswith hay needle ||
  match hay with
  | [] => false
  | _ :: hay' => contains needle hay'
  end.

(** [s.replace(c, "")] for a one-character [c] *)
Definition remove_char (c : N) (s : pystr) : pystr :=
  filter (fun x => x ≠ c) s.

(** [s[:n]] *)
Definition slice_to (n : nat) (s : pystr) : pystr := take n s.

Definition newline : N := 10.
Definition space : pystr := [32%N].

End PyStr.

Import PyStr.

(** ** Exceptions and outcomes *)

Inductive exn :=
  | PyValueError (msg : pystr)
  | PyIndexError (msg : pystr)
  | PyException (msg : pystr)
  | PyOverflowError (msg : pystr)
  | PyLibraryError (msg : pystr).

(** [str(e)] *)
Definition str_of_exn (e : exn) : pystr :=
  match e with
  | PyValueError m | PyIndexError m | PyException m | PyOverflowError m
  | PyLibraryError m => m
  end.

Inductive outcome (A : Type) :=
  | Ok (a : A)
  | Raise (e : exn).
Arguments Ok {A} a.
Arguments Raise {A} e.

Definition bind_outcome {A B} (r : outcome A) (k : A -> outcome B) : outcome B :=
  match r with
  | Ok a => k a
  | Raise e => Raise e
  end.

#[global] Instance outcome_fmap : FMap outcome :=
  fun A B f r => match r with Ok a => Ok (f a) | Raise e => Raise e end.

Declare Scope outcome_scope.
Delimit Scope outcome_scope with outcome.
Notation "'do' x <- r ; k" := (bind_outcome r (fun x => k))
  (at level 10, x name, r at level 100, k at level 200) : outcome_scope.

(** ** What the Python runtime and the third-party libraries provide *)

Inductive encoding := utf_8 | latin_1 | cp1252 | iso_8859_1.

(** A word-processor document as [python-docx] presents it: the paragraph
    texts, and for every table its rows of cell texts. *)
Record docx_document := {
  paragraphs : list pystr;
  tables : list (list (list pystr))
}.

Class Platform := {
  (** Unicode character database, consulted for code points above 127 *)
  uc_upper : N -> pystr;
  (** lower-casing sees the text before (reversed) and after the character:
      CPython's final-sigma rule *)
  uc_lower : pystr -> pystr -> N -> pystr;
  uc_isdigit : N -> bool;
  (** [int(c)]: [None] where CPython raises [ValueError] *)
  uc_int : N -> option Z;
  uc_isupper : N -> bool;
  uc_space_not_upper : forall c, isspace c = true -> uc_isupper c = false;
  (** [bytes.decode(encoding)]: [None] on [UnicodeDecodeError] *)
  bytes_decode : encoding -> list N -> option pystr;
  (** [bytes.decode('utf-8', errors='replace')] *)
  bytes_decode_replace : list N -> pystr;
  (** [f"{x:.1f}"] of the float nearest to [x] *)
  format_1f : Q -> pystr;
  (** PyPDF2 *)
  pdf_page : Type;
  PdfReader : list N -> outcome (list pdf_page);
  page_extract_text : pdf_page -> outcome pystr;
  (** python-docx *)
  Document : list N -> outcome docx_document
}.

(** A platform that knows ASCII only: no cased letters and no digits above
    code point 127, every codec reads one byte as one code point and fails on
    bytes above 127 (UTF-8) or never (the others), a PDF is one page per input
    byte and is unreadable when empty, a DOCX is unreadable.  It agrees with
    CPython on ASCII text, which is all the examples below use. *)
#[local] Instance ascii_platform : Platform := {|
  uc_upper c := [c];
  uc_lower _ _ c := [c];
  uc_isdigit _ := false;
  uc_int _ := None;
  uc_isupper _ := false;
  uc_space_not_upper _ _ := eq_refl;
  bytes_decode enc bs :=
    match enc with
    | utf_8 => if forallb (fun b => b <? 128)%N bs then Some bs else None
    | _ => Some bs
    end;
  bytes_decode_replace bs :=
    map (fun b => if (b <? 128)%N then b else 65533%N) bs;
  format_1f _ := [];
  pdf_page := N;
  PdfReader bs :=
    match bs with
    | [] => Raise (PyLibraryError (lit "Cannot read an empty file"))
    | _ => Ok bs
    end;
  page_extract_text b := Ok [b];
  Document _ := Raise (PyLibraryError (lit "File is not a zip file"))
|}.

(** ** document_processor.py *)

Module DocumentProcessor.
Section WithPlatform.
Context `{Platform}.
Open Scope outcome_scope.

(** Streamlit's [UploadedFile]: a named, typed byte buffer with a read
    position. *)
Record uploaded_file := {
  uf_name : pystr;
  uf_type : pystr;
  uf_size : Z;
  uf_bytes : list N;
  uf_pos : nat
}.

(** The file being processed and the messages shown with [st.error]. *)
Record world := {
  upload : uploaded_file;
  st_errors : list pystr
}.

(** Computations that read the upload, show messages and may raise; what an
    exception leaves behind stays. *)
Definition M (A : Type) : Type := world -> outcome A * world.

Definition ret {A} (a : A) : M A := fun w => (Ok a, w).
Definition raise {A} (e : exn) : M A := fun w => (Raise e, w).
Definition bind {A B} (m : M A) (k : A -> M B) : M B :=
  fun w => match m w with
           | (Ok a, w') => k a w'
           | (Raise e, w') => (Raise e, w')
           end.
Definition lift {A} (r : outcome A) : M A := fun w => (r, w).

(** [try: body except Exception as e: handler e] *)
Definition try_except {A} (body : M A) (handler : exn -> M A) : M A :=
  fun w => match body w with
           | (Ok a, w') => (Ok a, w')
           | (Raise e, w') => handler e w'
           end.

Notation "'run' x <- m ; k" := (bind m (fun x => k))
  (at level 10, x name, m at level 100, k at level 200).

(** [uploaded_file.read()] *)
Definition read : M (list N) :=
  fun w =>
    let f := upload w in
    (Ok (drop (uf_pos f) (uf_bytes f)),
     {| upload := {| uf_name := uf_name f; uf_type := uf_type f;
                     uf_size := uf_size f; uf_bytes := uf_bytes f;
                     uf_pos := Nat.max (uf_pos f) (length (uf_bytes f)) |};
        st_errors := st_errors w |}).

(** [uploaded_file.type], [uploaded_file.size] *)
Definition get_type : M pystr := fun w => (Ok (uf_type (upload w)), w).
Definition get_size : M Z := fun w => (Ok (uf_size (upload w)), w).

(** [st.error(msg)] *)
Definition st_error (msg : pystr) : M unit :=
  fun w => (Ok tt, {| upload := upload w; st_errors := st_errors w ++ [msg] |}).

(** How many bytes of the upload a computation has consumed. *)
Definition bytes_read (before after : world) : nat :=
  uf_pos (upload after) - uf_pos (upload before).

Fixpoint pages_text (pages : list pdf_page) (text : pystr) : outcome pystr :=
  match pages with
  | [] => Ok text
  | page :: rest =>
      do t <- page_extract_text page ;
      pages_text rest (text ++ t ++ [newline])
  end.

Definition _extract_from_pdf : M pystr :=
  try_except
    (run pdf_bytes <- read ;
     run pdf_reader <- lift (PdfReader pdf_bytes) ;
     run text <- lift (pages_text pdf_reader []) ;
     ret (strip text))
    (fun e => raise (PyException
       (lit "Failed to extract text from PDF: " ++ str_of_exn e))).

Definition paragraphs_text (ps : list pystr) (text : pystr) : pystr :=
  fold_left (fun text p => text ++ p ++ [newline]) ps text.

Definition row_text (cells : list pystr) (text : pystr) : pystr :=
  fold_left (fun text cell => text ++ cell ++ space) cells text ++ [newline].

Definition tables_text (ts : list (list (list pystr))) (text : pystr) : pystr :=
  fold_left (fun text table =>
               fold_left (fun text row => row_text row text) table text)
            ts text.

Definition _extract_from_docx : M pystr :=
  try_except
    (run docx_bytes <- read ;
     run doc <- lift (Document docx_bytes) ;
     let text := paragraphs_text (paragraphs doc) [] in
     let text := tables_text (tables doc) text in
     ret (strip text))
    (fun e => raise (PyException
       (lit "Failed to extract text from DOCX: " ++ str_of_exn e))).

(** The loop over the encodings: the first that decodes wins. *)
Fixpoint try_encodings (encodings : list encoding) (content : list N)
  : option pystr :=
  match encodings with
  | [] => None
  | enc :: rest =>
      match bytes_decode enc content with
      | Some text => Some (strip text)
      | None => try_encodings rest content
      end
  end.

(** [read] of an [UploadedFile] gives [bytes], so the [isinstance] test
    holds and the [str(content)] branch is not reached. *)
Definition _extract_from_txt : M pystr :=
  try_except
    (run content <- read ;
     match try_encodings [utf_8; latin_1; cp1252; iso_8859_1] content with
     | Some text => ret text
     | None => ret (strip (bytes_decode_replace content))
     end)
    (fun e => raise (PyException
       (lit "Failed to extract text from TXT: " ++ str_of_exn e))).

Definition docx_type : pystr :=
  lit "application/vnd.openxmlformats-officedocument.wordprocessingml.document".

(** The body of the [try] in [extract_text]. *)
Definition extract_text_body : M pystr :=
  run file_type <- get_type ;
  if str_eqb file_type (lit "application/pdf") then _extract_from_pdf
  else if bool_decide (file_type ∈ [docx_type; lit "application/msword"])
  then _extract_from_docx
  else if str_eqb file_type (lit "text/plain") then _extract_from_txt
  else raise (PyValueError (lit "Unsupported file type: " ++ file_type)).

Definition extract_text : M pystr :=
  try_except extract_text_body
    (fun e =>
       run u <- st_error (lit "Error extracting text: " ++ str_of_exn e) ;
       ret []).

Definition supported_types : list pystr :=
  [lit "application/pdf"; docx_type; lit "application/msword"; lit "text/plain"].

Definition max_size_mb : Q := 50.

(** The exact value of [size / (1024 * 1024)]. *)
Definition size_mb_of (size : Z) : Q := inject_Z size / inject_Z (1024 * 1024).

(** The smallest magnitude that has no float: half-way between the largest
    float and [2^1024], which rounds up. *)
Definition float_limit : Q := inject_Z (2 ^ 1024 - 2 ^ 970).

(** The sizes in bytes whose quotient by [1024 * 1024] reaches it. *)
Definition overflow_size : Z := ((2 ^ 1024 - 2 ^ 970) * (1024 * 1024))%Z.

(** [size / (1024 * 1024)] on integers is a float division.  It raises
    [OverflowError] where the quotient has no float; otherwise it gives the
    float nearest to the quotient, for which the exact quotient stands here.
    Comparing with 50 gives the same answer: rounding is monotone, 50 is a
    float, and a quotient by [2^20] that is not itself a float has a
    numerator above [2^53]. *)
Definition true_divide_mb (size : Z) : outcome Q :=
  if Qle_bool float_limit (Qabs (size_mb_of size))
  then Raise (PyOverflowError
                (lit "integer division result too large for a float"))
  else Ok (size_mb_of size).

Definition validate_file : M (bool * pystr) :=
  run file_type <- get_type ;
  if negb (bool_decide (file_type ∈ supported_types))
  then ret (false, lit "Unsupported file type: " ++ file_type)
  else
    run size <- get_size ;
    run size_mb <- lift (true_divide_mb size) ;
    if negb (Qle_bool size_mb max_size_mb)
    then ret (false, lit "File size (" ++ format_1f size_mb
                      ++ lit " MB) exceeds limit of 50 MB")
    else ret (true, lit "File is valid").

Definition preprocess_text (text : pystr) : pystr :=
  match text with
  | [] => []
  | _ =>
      let text := join space (split text) in
      let text := remove_char 0 text in
      let text := remove_char 65533 text in
      strip text
  end.

End WithPlatform.
End DocumentProcessor.

(** ** Character classes and case mappings *)

Section Unicode.
Context `{Platform}.

Definition is_ascii (c : N) : bool := (c <? 128)%N.

(** [c.isdigit()] *)
Definition py_isdigit (c : N) : bool :=
  if is_ascii c then (48 <=? c)%N && (c <=? 57)%N else uc_isdigit c.

(** [int(c)] for a one-character string *)
Definition py_int (c : N) : outcome Z :=
  let bad := Raise (PyValueError
    (lit "invalid literal for int() with base 10: '" ++ [c] ++ lit "'")) in
  if is_ascii c
  then if (48 <=? c)%N && (c <=? 57)%N then Ok (Z.of_N c - 48)%Z else bad
  else match uc_int c with
       | Some v => Ok v
       | None => bad
       end.

(** [c.isupper()] *)
Definition py_isupper (c : N) : bool :=
  if is_ascii c then (65 <=? c)%N && (c <=? 90)%N else uc_isupper c.

(** [s.upper()] *)
Definition upper_char (c : N) : pystr :=
  if is_ascii c
  then [if (97 <=? c)%N && (c <=? 122)%N then (c - 32)%N else c]
  else uc_upper c.

Definition upper (s : pystr) : pystr := flat_map upper_char s.

(** [s.lower()]; [before] is the text already passed, last character
    first. *)
Fixpoint lower_from (before : pystr) (s : pystr) : pystr :=
  match s with
  | [] => []
  | c :: s' =>
      (if is_ascii c
       then [if (65 <=? c)%N && (c <=? 90)%N then (c + 32)%N else c]
       else uc_lower before s' c)
      ++ lower_from (c :: before) s'
  end.

Definition lower (s : pystr) : pystr := lower_from [] s.

End Unicode.

(** ** gemini_analyzer.py *)

Module GeminiAnalyzer.
Section WithPlatform.
Context `{Platform}.
Open Scope outcome_scope.

(** Source lines of a literal, each followed by its line break. *)
Definition text_lines (ls : list string) : pystr :=
  flat_map (fun l => lit l ++ [newline]) ls.

Definition prompt_opening : pystr :=
  [newline] ++ text_lines
    ["        You are an expert legal analyst. Please analyze the following legal document text thoroughly.";
     "        "]
  ++ lit "        Analysis Type: ".

Definition prompt_before_text : pystr :=
  text_lines
    ["        ";
     "        Document Text:"]
  ++ lit "        ".

Definition prompt_requests : pystr :=
  text_lines
    ["  # Limit text to avoid token limits";
     "        ";
     "        Please provide a comprehensive analysis including:";
     "        ";
     "        1. DOCUMENT SUMMARY: A clear, concise summary of the document's purpose and main content";
     "        ";
     "        2. KEY POINTS: Extract and list the most important points, clauses, or provisions";
     "        ";
     "        3. LEGAL INSIGHTS: Provide insights about:";
     "           - Document complexity (score 1-10)";
     "           - Legal areas involved";
     "           - Potential risks or concerns";
     "           - Document tone/sentiment";
     "           - Important dates or deadlines mentioned";
     "        ";
     "        4. SIMPLIFIED EXPLANATION: Explain the document in plain English for non-lawyers";
     "        ";
     "        5. RECOMMENDATIONS: Suggest actions or considerations for the reader";
     "        ";
     "        Please format your response clearly with headers and bullet points where appropriate.";
     "        Make sure your analysis is practical and actionable."]
  ++ lit "        ".

Definition risk_focus : pystr :=
  [newline] ++ text_lines
    ["            ";
     "            SPECIAL FOCUS: Pay particular attention to:";
     "            - Potential legal risks";
     "            - Liability issues";
     "            - Compliance requirements";
     "            - Financial obligations";
     "            - Termination clauses"]
  ++ lit "            ".

Definition key_points_focus : pystr :=
  [newline] ++ text_lines
    ["            ";
     "            SPECIAL FOCUS: Emphasize:";
     "            - Critical clauses and provisions";
     "            - Rights and obligations";
     "            - Important definitions";
     "            - Performance requirements"]
  ++ lit "            ".

Definition base_prompt (text analysis_type complexity_level : pystr) : pystr :=
  prompt_opening ++ analysis_type ++ [newline]
  ++ lit "        Detail Level: " ++ complexity_level ++ [newline]
  ++ prompt_before_text ++ slice_to 8000 text ++ prompt_requests.

(** What the [if]/[elif] on the analysis type appends. *)
Definition focus_block (analysis_type : pystr) : pystr :=
  if str_eqb analysis_type (lit "Risk Assessment") then risk_focus
  else if str_eqb analysis_type (lit "Key Points Extraction") then key_points_focus
  else [].

Definition _create_analysis_prompt (text analysis_type complexity_level : pystr)
  : pystr :=
  base_prompt text analysis_type complexity_level ++ focus_block analysis_type.

(** Values held by the [insights] dictionary. *)
Inductive pyval :=
  | VInt (z : Z)
  | VStr (s : pystr)
  | VList (l : list pystr).

(** The dictionary an analysis returns.  The keys [error],
    [simplified_explanation] and [raw_analysis] are present in some of the
    dictionaries built by the source and absent in others. *)
Record analysis := {
  error : option pystr;
  summary : pystr;
  key_points : list pystr;
  insights : gmap string pyval;
  simplified_explanation : option pystr;
  recommendations : list pystr;
  raw_analysis : option pystr
}.

Definition set_summary (r : analysis) (v : pystr) : analysis :=
  {| error := error r; summary := v; key_points := key_points r;
     insights := insights r;
     simplified_explanation := simplified_explanation r;
     recommendations := recommendations r; raw_analysis := raw_analysis r |}.

Definition set_key_points (r : analysis) (v : list pystr) : analysis :=
  {| error := error r; summary := summary r; key_points := v;
     insights := insights r;
     simplified_explanation := simplified_explanation r;
     recommendations := recommendations r; raw_analysis := raw_analysis r |}.

Definition set_insights (r : analysis) (v : gmap string pyval) : analysis :=
  {| error := error r; summary := summary r; key_points := key_points r;
     insights := v;
     simplified_explanation := simplified_explanation r;
     recommendations := recommendations r; raw_analysis := raw_analysis r |}.

Definition set_simplified_explanation (r : analysis) (v : pystr) : analysis :=
  {| error := error r; summary := summary r; key_points := key_points r;
     insights := insights r;
     simplified_explanation := Some v;
     recommendations := recommendations r; raw_analysis := raw_analysis r |}.

Definition set_recommendations (r : analysis) (v : list pystr) : analysis :=
  {| error := error r; summary := summary r; key_points := key_points r;
     insights := insights r;
     simplified_explanation := simplified_explanation r;
     recommendations := v; raw_analysis := raw_analysis r |}.

(** The values [current_section] takes besides [None]. *)
Inductive section := Summary | KeyPoints | Insights | Simplified | Recommendations.

Definition nonempty (s : pystr) : bool :=
  match s with [] => false | _ => true end.

(** ['-•* 0123456789.'] *)
Definition bullet_chars : pystr := lit "-" ++ [8226%N] ++ lit "* 0123456789.".

(** [line.startswith(('-', '•', '*'))] *)
Definition starts_with_bullet (line : pystr) : bool :=
  existsb (startswith line) [lit "-"; [8226%N]; lit "*"].

(** [line[0].isdigit()] *)
Definition first_isdigit (line : pystr) : outcome bool :=
  match line with
  | [] => Raise (PyIndexError (lit "string index out of range"))
  | c :: _ => Ok (py_isdigit c)
  end.

(** The loop shared by the key-points and the recommendations branch. *)
Fixpoint collect_items (content : list pystr) (points : list pystr)
  : outcome (list pystr) :=
  match content with
  | [] => Ok points
  | line :: rest =>
      do marked <- (if starts_with_bullet line then Ok true
                    else first_isdigit line) ;
      if marked
      then collect_items rest (points ++ [lstrip_chars bullet_chars line])
      else if nonempty (strip line)
      then collect_items rest (points ++ [line])
      else collect_items rest points
  end.

(** [[p.strip() for p in points if p.strip()]] *)
Definition stripped_nonempty (points : list pystr) : list pystr :=
  map strip (filter (fun p => nonempty (strip p) = true) points).

(** [for char in line: if char.isdigit(): insights[...] = int(char); break] *)
Fixpoint set_complexity_score (line : pystr) (insights : gmap string pyval)
  : outcome (gmap string pyval) :=
  match line with
  | [] => Ok insights
  | char :: rest =>
      if py_isdigit char
      then do v <- py_int char ; Ok (<["complexity_score" := VInt v]> insights)
      else set_complexity_score rest insights
  end.

(** One turn of the loop over the lines of the insights section. *)
Definition scan_insight_line (insights : gmap string pyval) (line : pystr)
  : outcome (gmap string pyval) :=
  let low := lower line in
  do insights <-
    (if contains (lit "complexity") low && existsb py_isdigit line
     then set_complexity_score line insights
     else Ok insights) ;
  let insights :=
    if contains (lit "legal area") low || contains (lit "area") low
    then <["legal_areas" :=
            VList (stripped_nonempty (split_on 44 line))]> insights
    else insights in
  let insights :=
    if contains (lit "sentiment") low || contains (lit "tone") low
    then <["sentiment" :=
            VStr (if contains (lit ":") line
                  then strip (List.last (split_on 58 line) [])
                  else lit "Neutral")]> insights
    else insights in
  Ok insights.

Fixpoint scan_insights (content : list pystr) (insights : gmap string pyval)
  : outcome (gmap string pyval) :=
  match content with
  | [] => Ok insights
  | line :: rest =>
      do insights <- scan_insight_line insights line ;
      scan_insights rest insights
  end.

Definition _process_section (result : analysis) (section_ : section)
    (content : list pystr) : outcome analysis :=
  let content_text := strip (join [newline] content) in
  match section_ with
  | Summary => Ok (set_summary result content_text)
  | KeyPoints =>
      do points <- collect_items content [] ;
      Ok (set_key_points result (stripped_nonempty points))
  | Insights =>
      do insights <- scan_insights content ∅ ;
      Ok (set_insights result insights)
  | Simplified => Ok (set_simplified_explanation result content_text)
  | Recommendations =>
      do recommendations <- collect_items content [] ;
      Ok (set_recommendations result (stripped_nonempty recommendations))
  end.

(** The state of the loop over the reply's lines. *)
Record parser := {
  result : analysis;
  current_section : option section;
  current_content : list pystr
}.

(** [any(header in line.upper() for header in headers)] *)
Definition any_header (headers : list string) (line : pystr) : bool :=
  existsb (fun header => contains (lit header) (upper line)) headers.

(** The [if]/[elif] chain over the header synonyms, in its order. *)
Definition header_of (line : pystr) : option section :=
  if any_header ["SUMMARY"; "DOCUMENT SUMMARY"]%string line then Some Summary
  else if any_header ["KEY POINTS"; "MAIN POINTS"]%string line then Some KeyPoints
  else if any_header ["INSIGHTS"; "LEGAL INSIGHTS"]%string line then Some Insights
  else if any_header ["SIMPLIFIED"; "PLAIN ENGLISH"]%string line then Some Simplified
  else if any_header ["RECOMMENDATIONS"; "SUGGESTIONS"]%string line
  then Some Recommendations
  else None.

(** [if current_section and current_content: self._process_section(...)] *)
Definition flush (st : parser) : outcome analysis :=
  match current_section st, current_content st with
  | Some section_, _ :: _ => _process_section (result st) section_ (current_content st)
  | _, _ => Ok (result st)
  end.

(** The body of [for line in lines]. *)
Definition parse_line (st : parser) (line : pystr) : outcome parser :=
  let line := strip line in
  match header_of line with
  | Some section_ =>
      do result <- flush st ;
      Ok {| result := result; current_section := Some section_;
            current_content := [] |}
  | None =>
      if nonempty line && negb (startswith line (lit "#"))
      then Ok {| result := result st; current_section := current_section st;
                 current_content := current_content st ++ [line] |}
      else Ok st
  end.

Fixpoint parse_lines (st : parser) (lines : list pystr) : outcome parser :=
  match lines with
  | [] => Ok st
  | line :: rest => do st <- parse_line st line ; parse_lines st rest
  end.

(** [len([c for c in text if c.isupper()])] *)
Definition uppercase_letter_count (text : pystr) : Z :=
  Z.of_nat (length (filter (fun c => py_isupper c = true) text)).

Definition _generate_basic_insights (text : pystr) : gmap string pyval :=
  let word_count := Z.of_nat (length (split text)) in
  let char_count := Z.of_nat (length text) in
  let complexity_score :=
    Z.min 10 (Z.max 1 (word_count / 500
                       + uppercase_letter_count text / 100))%Z in
  <["word_count" := VInt word_count]>
  (<["character_count" := VInt char_count]>
  (<["complexity_score" := VInt complexity_score]>
  (<["complexity_level" :=
      VStr (if (complexity_score <=? 3)%Z then lit "Low"
            else if (complexity_score <=? 7)%Z then lit "Medium"
            else lit "High")]>
  (<["estimated_reading_time" :=
      VStr (lit (pretty (word_count / 200 + 1)%Z) ++ lit " minutes")]> ∅)))).

Definition initial_result (response_text : pystr) : analysis :=
  {| error := None; summary := []; key_points := []; insights := ∅;
     simplified_explanation := Some []; recommendations := [];
     raw_analysis := Some response_text |}.

(** Everything up to and including "Process the last section": the record
    before the fallback is considered. *)
Definition structure_lines (lines : list pystr) (response_text : pystr)
  : outcome analysis :=
  do st <- parse_lines {| result := initial_result response_text;
                          current_section := None;
                          current_content := [] |} lines ;
  flush st.

(** "Add basic insights if not extracted" *)
Definition add_basic_insights (result : analysis) (original_text : pystr)
  : analysis :=
  if bool_decide (insights result = ∅)
  then set_insights result (_generate_basic_insights original_text)
  else result.

(** The function from the list of lines on. *)
Definition parse_response_lines (lines : list pystr)
    (response_text original_text : pystr) : outcome analysis :=
  do result <- structure_lines lines response_text ;
  Ok (add_basic_insights result original_text).

Definition _parse_analysis_response (response_text original_text : pystr)
  : outcome analysis :=
  parse_response_lines (split_on newline response_text)
                       response_text original_text.

(** [self.client.models.generate_content(model, contents).text]: the reply
    text, [None] when the reply has none, or an exception. *)
Definition client := pystr -> outcome (option pystr).

Definition failed_analysis (e : exn) : analysis :=
  {| error := Some (str_of_exn e);
     summary := lit "Analysis failed due to an error.";
     key_points := []; insights := ∅; simplified_explanation := None;
     recommendations := []; raw_analysis := None |}.

(** The body of the [try] in [analyze_document]. *)
Definition analyze_document_body (generate_content : client)
    (text analysis_type complexity_level : pystr) : outcome analysis :=
  let prompt := _create_analysis_prompt text analysis_type complexity_level in
  do response_text <- generate_content prompt ;
  match response_text with
  | None | Some [] => Raise (PyException (lit "Empty response from Gemini API"))
  | Some response_text => _parse_analysis_response response_text text
  end.

(** [logging.error] writes to the log only and is left out. *)
Definition analyze_document (generate_content : client)
    (text analysis_type complexity_level : pystr) : analysis :=
  match analyze_document_body generate_content text analysis_type
                              complexity_level with
  | Ok analysis_result => analysis_result
  | Raise e => failed_analysis e
  end.

Definition summary_prompt (text : pystr) : pystr :=
  [newline] ++ text_lines
    ["            Please provide a concise summary of this legal document in 2-3 sentences:";
     "            "]
  ++ lit "            " ++ slice_to 4000 text ++ [newline] ++ text_lines
    ["            ";
     "            Focus on the document's main purpose and key provisions."]
  ++ lit "            ".

(** [response.text or "Summary not available"], and the message of the
    [except] branch. *)
Definition get_document_summary (generate_content : client) (text : pystr)
  : pystr :=
  match generate_content (summary_prompt text) with
  | Ok (Some (c :: response_text)) => c :: response_text
  | Ok _ => lit "Summary not available"
  | Raise e => lit "Error generating summary: " ++ str_of_exn e
  end.

Definition entities_prompt (text : pystr) : pystr :=
  [newline] ++ text_lines
    ["            Extract the key legal entities, important dates, and critical terms from this legal document.";
     "            Return them as a simple list:";
     "            "]
  ++ lit "            " ++ slice_to 4000 text ++ [newline] ++ text_lines
    ["            ";
     "            Focus on: parties involved, important dates, key legal terms, amounts, deadlines."]
  ++ lit "            ".

(** ['-•* '] *)
Definition entity_bullets : pystr := lit "-" ++ [8226%N] ++ lit "* ".

(** [[line.strip().lstrip('-•* ') for line in lines if line.strip()]] *)
Definition entity_lines (lines : list pystr) : list pystr :=
  map (fun line => lstrip_chars entity_bullets (strip line))
      (filter (fun line => nonempty (strip line) = true) lines).

(** [logging.error] writes to the log only and is left out. *)
Definition extract_key_entities (generate_content : client) (text : pystr)
  : list pystr :=
  match generate_content (entities_prompt text) with
  | Ok (Some (c :: response_text)) =>
      take 20 (entity_lines (split_on newline (c :: response_text)))
  | Ok _ => []
  | Raise e => []
  end.

End WithPlatform.
End GeminiAnalyzer.

(** ** app.py: the "Analyze Document" button *)

Module App.
Section WithPlatform.
Context `{Platform}.
Import GeminiAnalyzer.

(** The dictionary stored after an analysis run: what [analyze_document]
    returned plus the keys the page adds. *)
Record analysis_record := {
  analysis_result : analysis;
  analyzed : bool;
  analysis_date : pystr;
  analysis_type : pystr;
  complexity_level : pystr;
  advanced_options : bool * bool * bool
}.

(** The [analysis] column: the dictionary written at upload,
    [{"status": "uploaded", "analyzed": False}], or an analysis record. *)
Inductive analysis_column :=
  | Uploaded
  | Analysed (record : analysis_record).

Record document := {
  filename : pystr;
  file_type : pystr;
  upload_date : pystr;
  content : pystr;
  analysis : option analysis_column
}.

(** The [documents] table, by id. *)
Abbreviation documents := (gmap Z document).

(** [analysis_data.get("analyzed", False)] of a row *)
Definition is_analyzed (doc : document) : bool :=
  match analysis doc with
  | Some (Analysed record) => analyzed record
  | _ => false
  end.

(** [UPDATE documents SET analysis = ? WHERE id = ?] *)
Definition update_analysis (db : documents) (doc_id : Z)
    (record : analysis_record) : documents :=
  alter (fun doc => {| filename := filename doc; file_type := file_type doc;
                       upload_date := upload_date doc; content := content doc;
                       analysis := Some (Analysed record) |}) doc_id db.

(** What pressing the button does to the table for the selected document;
    [now] is the formatted [datetime.now()]. *)
Definition analyze_button (generate_content : client) (now : pystr)
    (db : documents) (doc_id : Z)
    (analysis_type complexity_level : pystr)
    (include_entities include_risks include_timeline : bool) : documents :=
  match db !! doc_id with
  | None => db
  | Some doc =>
      let analysis_result :=
        analyze_document generate_content (content doc) analysis_type
                         complexity_level in
      update_analysis db doc_id
        {| analysis_result := analysis_result;
           analyzed := true;
           analysis_date := now;
           analysis_type := analysis_type;
           complexity_level := complexity_level;
           advanced_options :=
             (include_entities, include_risks, include_timeline) |}
  end.

End WithPlatform.
End App.

(** ** database.py *)

Module Database.
Import App.

(** The [documents] table and the counter SQLite keeps for an
    [AUTOINCREMENT] key: the largest id ever given out.  The engine is taken
    to work: the only statement that fails is an [INSERT] once the largest
    id has been given out. *)
Record database := {
  table : gmap Z document;
  sqlite_sequence : Z
}.

(** [CREATE TABLE IF NOT EXISTS] on a new file. *)
Definition init_database : database :=
  {| table := ∅; sqlite_sequence := 0 |}.

Definition max_rowid : Z := 9223372036854775807.

(** [analysis] is the dictionary to store, [None] for a false one;
    [now] is the formatted [datetime.now()].  A failed [INSERT] is caught
    and gives [None]. *)
Definition store_document (now : pystr) (db : database)
    (filename content : pystr) (analysis : option analysis_column)
    (file_type : pystr) : option Z * database :=
  if bool_decide (sqlite_sequence db < max_rowid)%Z
  then
    let doc_id := (sqlite_sequence db + 1)%Z in
    (Some doc_id,
     {| table := <[doc_id := {| filename := filename; file_type := file_type;
                                upload_date := now; content := content;
                                App.analysis := analysis |}]> (table db);
        sqlite_sequence := doc_id |})
  else (None, db).

(** The row as the tuple [(id, filename, file_type, upload_date, content,
    analysis)]. *)
Definition get_document_by_id (db : database) (doc_id : Z)
  : option (Z * document) :=
  match table db !! doc_id with
  | Some doc => Some (doc_id, doc)
  | None => None
  end.

(** [cursor.rowcount > 0] and the table afterwards. *)
Definition delete_document (db : database) (doc_id : Z) : bool * database :=
  (bool_decide (is_Some (table db !! doc_id)),
   {| table := delete doc_id (table db);
      sqlite_sequence := sqlite_sequence db |}).

End Database.

(** ** app.py: the upload page and the list of unanalyzed documents *)

Module Pages.
Section WithPlatform.
Context `{Platform}.
Import DocumentProcessor App Database.

(** What the "Document Upload" page does with an uploaded file.  Of the
    messages only those shown with [st.error] are kept; the preview and the
    metrics are display only. *)
Definition upload_page (now : pystr) (w : world) (db : database)
  : world * database :=
  match extract_text w with
  | (Ok extracted_text, w') =>
      if negb (GeminiAnalyzer.nonempty (strip extracted_text))
      then ({| upload := upload w';
               st_errors := st_errors w' ++
                 [lit "Could not extract text from the document. Please check the file format."] |},
            db)
      else (w', snd (store_document now db (uf_name (upload w')) extracted_text
                                    (Some Uploaded) (uf_type (upload w'))))
  | (Raise e, w') =>
      ({| upload := upload w';
          st_errors := st_errors w' ++
            [lit "Error processing document: " ++ str_of_exn e] |}, db)
  end.

(** The documents offered under "New Analysis": the rows of
    [get_all_documents] that are not marked as analyzed. *)
Definition unanalyzed (all_documents : list (Z * document))
  : list (Z * document) :=
  filter (fun row => is_analyzed (snd row) = false) all_documents.

End WithPlatform.
End Pages.

(** ** Predicates and sample inputs used in the statements *)

(** A word of [split]: not empty, no whitespace in it. *)
Definition is_word (w : pystr) : Prop :=
  w ≠ [] ∧ Forall (fun c => isspace c = false) w.

(** No null character and no U+FFFD, the two that [preprocess_text]
    deletes. *)
Definition no_artifacts (t : pystr) : Prop := (0%N ∉ t) ∧ (65533%N ∉ t).

#[local] Instance no_artifacts_dec t : Decision (no_artifacts t) :=
  and_dec _ _.

(** Texts without whitespace. *)
Abbreviation spaceless := (Forall (fun c => isspace c = false)).

(** A word with its null and replacement characters deleted. *)
Definition clean_word (w : pystr) : pystr :=
  remove_char 65533 (remove_char 0 w).

(** A word that the deletion leaves empty: it holds nothing but null and
    replacement characters. *)
Definition vanishes (w : pystr) : Prop := clean_word w = [].

(** The words of the text that vanish stand before or after all those that
    stay, never between two of them. *)
Definition vanishing_words_at_ends (t : pystr) : Prop :=
  ∃ before kept after : list pystr,
    split t = before ++ kept ++ after ∧
    Forall vanishes before ∧
    Forall (fun w => ¬ vanishes w) kept ∧
    Forall vanishes after.

(** A list of words without the empty ones at its start, at its end. *)
Fixpoint drop_empty (ws : list pystr) : list pystr :=
  match ws with
  | [] :: rest => drop_empty rest
  | _ => ws
  end.

Definition drop_empty_end (ws : list pystr) : list pystr :=
  reverse (drop_empty (reverse ws)).

Definition trim_empty (ws : list pystr) : list pystr :=
  drop_empty_end (drop_empty ws).

Section StatementPredicates.
Context `{Platform}.
Import DocumentProcessor GeminiAnalyzer.

(** Following the specification's words: the uppercase letters of a text.
    A character counts when it is one of A to Z or, above the ASCII range,
    an uppercase letter of the Unicode database. *)
Definition is_uppercase_letter (c : N) : bool :=
  if (c <? 128)%N then bool_decide (65 <= c <= 90)%N else uc_isupper c.

Fixpoint count_uppercase_letters (text : pystr) : Z :=
  match text with
  | [] => 0
  | c :: rest =>
      ((if is_uppercase_letter c then 1 else 0) + count_uppercase_letters rest)%Z
  end.

(** What a parser state looks like as long as no insights header was met. *)
Definition no_insights_yet (st : parser) : Prop :=
  insights (result st) = ∅ ∧
  current_section st ≠ Some Insights ∧
  Forall (fun line => line ≠ []) (current_content st).

(** The world after [st.error] has shown why extraction failed. *)
Definition after_error (w : world) (e : exn) : world :=
  {| upload := upload w;
     st_errors := st_errors w ++ [lit "Error extracting text: " ++ str_of_exn e] |}.

(** The world after [read]. *)
Definition after_read (w : world) : world := snd (read w).

End StatementPredicates.

Section SampleInputs.
Import DocumentProcessor GeminiAnalyzer App.

(** The line of the specification's fixture. *)
Definition fixture : pystr :=
  lit "Legal Insights: complexity 7, area Contract Law, Tort".

Definition fixture_areas : list pystr :=
  [lit "Legal Insights: complexity 7"; lit "area Contract Law"; lit "Tort"].

Definition hash_reply : pystr :=
  lit "Summary" ++ [newline] ++ lit "# Overview" ++ [newline] ++ lit "A lease.".

Definition three_section_reply : pystr :=
  join [newline]
    [lit "Summary"; lit "A lease of a flat."; lit "Key Points";
     lit "- Rent is due monthly"; lit "Recommendations"; lit "1. Seek advice"].

Definition lease_text : pystr := lit "THIS LEASE is made between A and B.".

Definition three_section_structured : GeminiAnalyzer.analysis :=
  {| error := None; summary := lit "A lease of a flat.";
     key_points := [lit "Rent is due monthly"]; insights := ∅;
     simplified_explanation := Some [];
     recommendations := [lit "Seek advice"];
     raw_analysis := Some three_section_reply |}.

Definition png_upload : world :=
  {| upload := {| uf_name := lit "scan.png"; uf_type := lit "image/png";
                  uf_size := 4; uf_bytes := [137; 80; 78; 71]%N; uf_pos := 0 |};
     st_errors := [] |}.

(** An upload declared as PDF that the reader refuses. *)
Definition broken_pdf_upload : world :=
  {| upload := {| uf_name := lit "lease.pdf"; uf_type := lit "application/pdf";
                  uf_size := 0; uf_bytes := []; uf_pos := 0 |};
     st_errors := [] |}.

Definition text_upload : world :=
  {| upload := {| uf_name := lit "lease.txt"; uf_type := lit "text/plain";
                  uf_size := 9; uf_bytes := lit " A lease "; uf_pos := 0 |};
     st_errors := [] |}.

(** A service that answers every request with an empty text. *)
Definition silent_service : client := fun _ => Ok (Some []).

(** A service that cannot be reached. *)
Definition unreachable_service : client :=
  fun _ => Raise (PyLibraryError (lit "Connection refused")).

Definition earlier_record : analysis_record :=
  {| analysis_result :=
       {| error := None; summary := lit "A lease of a flat.";
          key_points := [lit "Rent is due monthly"];
          insights := {["complexity_score" := VInt 4]};
          simplified_explanation := Some (lit "You rent a flat.");
          recommendations := [lit "Seek advice"];
          raw_analysis := Some three_section_reply |};
     analyzed := true;
     analysis_date := lit "2024-01-05 10:00:00";
     App.analysis_type := lit "Comprehensive Analysis";
     complexity_level := lit "Intermediate";
     advanced_options := (true, true, false) |}.

Definition lease_document : document :=
  {| filename := lit "lease.txt"; file_type := lit "text/plain";
     upload_date := lit "2024-01-05 09:59:00"; content := lease_text;
     analysis := Some (Analysed earlier_record) |}.

Definition one_document : gmap Z document := {[ 1%Z := lease_document ]}.

(** The record the table holds after the failed run. *)
Definition failed_record (message : string) : analysis_record :=
  {| analysis_result :=
       {| error := Some (lit message);
          summary := lit "Analysis failed due to an error.";
          key_points := []; insights := ∅; simplified_explanation := None;
          recommendations := []; raw_analysis := None |};
     analyzed := true;
     analysis_date := lit "2024-02-01 12:00:00";
     App.analysis_type := lit "Risk Assessment";
     complexity_level := lit "Expert";
     advanced_options := (true, true, false) |}.

(** The same upload with another declared size. *)
Definition with_size (size : Z) (w : world) : world :=
  {| upload := {| uf_name := uf_name (upload w); uf_type := uf_type (upload w);
                  uf_size := size; uf_bytes := uf_bytes (upload w);
                  uf_pos := uf_pos (upload w) |};
     st_errors := st_errors w |}.

(** A text file of [size] bytes, each the letter a. *)
Definition sized_text_upload (size : N) : world :=
  {| upload := {| uf_name := lit "big.txt"; uf_type := lit "text/plain";
                  uf_size := Z.of_N size;
                  uf_bytes := repeat 97%N (N.to_nat size); uf_pos := 0 |};
     st_errors := [] |}.

(** 60 MB. *)
Definition sixty_mb : N := 62914560.

End SampleInputs.

(** ** Predicates and sample inputs used in the further statements *)

Section StructurerPredicates.
Context `{Platform}.
Import GeminiAnalyzer.

(** Text made of ASCII characters only. *)
Definition ascii_text (s : pystr) : Prop := Forall (fun c => is_ascii c = true) s.

(** The buffer holds non-empty ASCII lines. *)
Definition ascii_buffer (st : parser) : Prop :=
  Forall (fun line => line ≠ []) (current_content st) ∧
  Forall ascii_text (current_content st).

(** The keys that no section writes. *)
Definition bookkeeping (r : GeminiAnalyzer.analysis) : option pystr * option pystr * bool :=
  (error r, raw_analysis r, bool_decide (is_Some (simplified_explanation r))).

(** What the insights scan can have written. *)
Definition insight_entry_ok (key : string) (v : pyval) : Prop :=
  match v with
  | VInt z => key = "complexity_score"
  | VList areas =>
      key = "legal_areas" ∧
      Forall (fun a => a ≠ [] ∧ strip a = a ∧ 44%N ∉ a) areas
  | VStr s => key = "sentiment" ∧ strip s = s ∧ 58%N ∉ s
  end.

Definition insights_ok (found : gmap string pyval) : Prop :=
  ∀ key v, found !! key = Some v -> insight_entry_ok key v.

(** A line that does not set the complexity score. *)
Definition no_score_line (line : pystr) : Prop :=
  contains (lit "complexity") (lower line) && existsb py_isdigit line = false.

End StructurerPredicates.

Section PagePredicates.
Import DocumentProcessor App Database.

(** The bytes [read] returns. *)
Definition unread (w : world) : list N :=
  drop (uf_pos (upload w)) (uf_bytes (upload w)).

(** The text of one table row: every cell followed by a space, then a line
    break. *)
Definition row_line (cells : list pystr) : pystr :=
  flat_map (fun cell => cell ++ space) cells ++ [newline].

(** The row with another value in its [analysis] column. *)
Definition with_analysis (doc : document) (a : option analysis_column)
  : document :=
  {| filename := filename doc; file_type := file_type doc;
     upload_date := upload_date doc; content := content doc;
     analysis := a |}.

(** Every id in the table has been given out by the counter. *)
Definition counted (db : database) : Prop :=
  (0 <= sqlite_sequence db)%Z ∧
  ∀ doc_id, is_Some (table db !! doc_id) ->
            (0 < doc_id <= sqlite_sequence db)%Z.

(** The file itself, apart from how far it has been read. *)
Definition same_file (w w' : world) : Prop :=
  uf_name (upload w') = uf_name (upload w) ∧
  uf_type (upload w') = uf_type (upload w) ∧
  uf_bytes (upload w') = uf_bytes (upload w).

End PagePredicates.

Section FurtherSampleInputs.

(** A second platform for the examples.  It knows one digit above code point
    127, the superscript two, which [int] refuses; a PDF is one page per
    byte and the page 0 cannot be extracted; a DOCX is one paragraph holding
    the bytes and one table of one row whose two cells hold them as well. *)
Definition sample_platform : Platform := {|
  uc_upper c := [c];
  uc_lower _ _ c := [c];
  uc_isdigit c := (c =? 178)%N;
  uc_int _ := None;
  uc_isupper _ := false;
  uc_space_not_upper _ _ := eq_refl;
  bytes_decode enc bs :=
    match enc with
    | utf_8 => if forallb (fun b => b <? 128)%N bs then Some bs else None
    | _ => Some bs
    end;
  bytes_decode_replace bs :=
    map (fun b => if (b <? 128)%N then b else 65533%N) bs;
  format_1f _ := [];
  pdf_page := N;
  PdfReader bs := Ok bs;
  page_extract_text b :=
    if (b =? 0)%N then Raise (PyLibraryError (lit "Cannot decode page"))
    else Ok [b];
  Document bs := Ok {| paragraphs := [bs]; tables := [[[bs; bs]]] |}
|}.

(** An upload of the given type and bytes, not yet read. *)
Definition fresh_upload (type : string) (bytes : list N) : DocumentProcessor.world :=
  {| DocumentProcessor.upload :=
       {| DocumentProcessor.uf_name := lit "document";
          DocumentProcessor.uf_type := lit type;
          DocumentProcessor.uf_size := Z.of_nat (length bytes);
          DocumentProcessor.uf_bytes := bytes;
          DocumentProcessor.uf_pos := 0 |};
     DocumentProcessor.st_errors := [] |}.

(** The lines of [three_section_reply]. *)
Definition three_section_lines : list pystr :=
  [lit "Summary"; lit "A lease of a flat."; lit "Key Points";
   lit "- Rent is due monthly"; lit "Recommendations"; lit "1. Seek advice"].

(** A service that answers every request with a short list. *)
Definition listing_service : GeminiAnalyzer.client :=
  fun _ => Ok (Some (join [newline] [lit "- Acme Ltd"; lit ""; lit "* 1 May 2024"])).

End FurtherSampleInputs.

(** * Properties *)

(** ** Strings *)

Section StringFacts.

Lemma split_ws_from_app cur w rest :
  Forall (fun c => isspace c = false) w ->
  split_ws_from cur (w ++ rest) = split_ws_from (cur ++ w) rest.
Proof.
  intros Hw. revert cur.
  induction Hw as [|c w Hc _ IH]; intros cur; simpl.
  - by rewrite app_nil_r.
  - rewrite Hc, IH. by rewrite <- app_assoc.
Qed.

Lemma split_ws_from_space cur rest :
  cur ≠ [] ->
  split_ws_from cur (space ++ rest) = cur :: split_ws_from [] rest.
Proof. intros Hcur. simpl. by destruct cur. Qed.

Lemma split_ws_from_words s : forall cur,
  Forall (fun c => isspace c = false) cur ->
  Forall is_word (split_ws_from cur s).
Proof.
  induction s as [|c s IH]; intros cur Hcur; simpl.
  - destruct cur; constructor; [split; [done | done] | constructor].
  - destruct (isspace c) eqn:Hc.
    + destruct cur.
      * apply IH. constructor.
      * constructor; [split; [done | done] | apply IH; constructor].
    + apply IH. apply Forall_app. split; [done | by constructor].
Qed.

Lemma split_words s : Forall is_word (split s).
Proof. apply split_ws_from_words. constructor. Qed.

(** The characters of the words come from the text. *)
Lemma split_ws_from_chars s : forall cur w c,
  w ∈ split_ws_from cur s -> c ∈ w -> c ∈ cur ∨ c ∈ s.
Proof.
  induction s as [|x s IH]; intros cur w c Hw Hc; simpl in Hw.
  - destruct cur; [by apply elem_of_nil in Hw |].
    apply list_elem_of_singleton in Hw. subst. by left.
  - destruct (isspace x).
    + destruct cur.
      * destruct (IH _ _ _ Hw Hc) as [Hin | Hin];
          [by apply elem_of_nil in Hin | right; by constructor].
      * apply elem_of_cons in Hw as [-> | Hw]; [by left |].
        destruct (IH _ _ _ Hw Hc) as [Hin | Hin];
          [by apply elem_of_nil in Hin | right; by constructor].
    + destruct (IH _ _ _ Hw Hc) as [Hin | Hin].
      * apply elem_of_app in Hin as [Hin | Hin]; [by left |].
        apply list_elem_of_singleton in Hin. subst. right. constructor.
      * right. by constructor.
Qed.

Lemma join_cons sep (w : pystr) ws :
  ws ≠ [] -> join sep (w :: ws) = w ++ sep ++ join sep ws.
Proof. by destruct ws. Qed.

Lemma join_chars sep ws c :
  c ∈ join sep ws -> c ∈ sep ∨ ∃ w, w ∈ ws ∧ c ∈ w.
Proof.
  induction ws as [|w ws IH]; intros Hc.
  - by apply elem_of_nil in Hc.
  - destruct ws as [|w' ws'].
    + right. exists w. split; [constructor | done].
    + rewrite join_cons in Hc by done.
      apply elem_of_app in Hc as [Hc | Hc].
      { right. exists w. split; [constructor | done]. }
      apply elem_of_app in Hc as [Hc | Hc]; [by left |].
      destruct (IH Hc) as [? | (w0 & Hw0 & Hc0)]; [by left |].
      right. exists w0. split; [by constructor | done].
Qed.

(** Splitting undoes joining words with single spaces. *)
Lemma split_join ws : Forall is_word ws -> split (join space ws) = ws.
Proof.
  unfold split. induction 1 as [|w ws [Hne Hw] Hws IH]; [done |].
  destruct ws as [|w' ws'].
  - pose proof (split_ws_from_app [] w [] Hw) as E.
    rewrite app_nil_r in E. simpl in *. rewrite E. by destruct w.
  - rewrite join_cons by done.
    rewrite split_ws_from_app by done. simpl app at 1.
    rewrite split_ws_from_space by done. by rewrite IH.
Qed.

Lemma remove_char_absent c s : c ∉ s -> remove_char c s = s.
Proof.
  intros Hc. unfold remove_char. induction s as [|x s IH]; [done |].
  rewrite filter_cons. destruct (decide (x ≠ c)) as [Hx | Hx].
  - f_equal. apply IH. intros Hin. apply Hc. by constructor.
  - exfalso. apply Hc. apply dec_stable in Hx. subst. constructor.
Qed.

Lemma remove_char_gone c s : c ∉ remove_char c s.
Proof.
  unfold remove_char. intros Hin. apply list_elem_of_filter in Hin. tauto.
Qed.

Lemma remove_char_subset c s x : x ∈ remove_char c s -> x ∈ s.
Proof.
  unfold remove_char. intros Hin. apply list_elem_of_filter in Hin. tauto.
Qed.

Lemma dropwhile_subset p s x : x ∈ dropwhile p s -> x ∈ s.
Proof.
  induction s as [|c s IH]; simpl; [done |].
  destruct (p c); [| done]. intros Hx. constructor. by apply IH.
Qed.

Lemma strip_subset s x : x ∈ strip s -> x ∈ s.
Proof.
  unfold strip, rstrip, lstrip. intros Hx.
  apply elem_of_reverse, dropwhile_subset in Hx.
  by apply elem_of_reverse, dropwhile_subset in Hx.
Qed.

(** A text that neither starts nor ends with whitespace is its own strip. *)
Lemma lstrip_word_app w rest : is_word w -> lstrip (w ++ rest) = w ++ rest.
Proof.
  intros [Hne Hw]. destruct w as [|c w]; [done |].
  unfold lstrip. simpl. by rewrite (Forall_inv Hw).
Qed.

Lemma rstrip_app_word s w : is_word w -> rstrip (s ++ w) = s ++ w.
Proof.
  intros [Hne Hw]. unfold rstrip.
  destruct (reverse w) as [|c rw] eqn:Hrev.
  - apply (f_equal reverse) in Hrev. rewrite reverse_involutive in Hrev. done.
  - rewrite reverse_app, Hrev. simpl.
    assert (Hc : isspace c = false).
    { eapply Forall_forall in Hw; [exact Hw |].
      apply elem_of_reverse. rewrite Hrev. constructor. }
    rewrite Hc. change (c :: rw ++ reverse s) with ((c :: rw) ++ reverse s).
    rewrite <- Hrev, <- reverse_app. apply reverse_involutive.
Qed.

Lemma join_words_ends ws :
  Forall is_word ws -> ws ≠ [] ->
  ∃ s w, join space ws = s ++ w ∧ is_word w.
Proof.
  induction 1 as [|w ws Hw Hws IH]; intros Hne; [done |].
  destruct ws as [|w' ws'].
  - exists [], w. done.
  - destruct IH as (s & w0 & Heq & Hw0); [done |].
    exists (w ++ space ++ s), w0. rewrite join_cons by done.
    rewrite Heq. by rewrite <- !app_assoc.
Qed.

Lemma strip_join_words ws :
  Forall is_word ws -> strip (join space ws) = join space ws.
Proof.
  intros Hws. destruct ws as [|w ws]; [done |].
  unfold strip.
  assert (Hl : lstrip (join space (w :: ws)) = join space (w :: ws)).
  { destruct ws as [|w' ws'].
    - pose proof (lstrip_word_app w [] (Forall_inv Hws)) as E.
      by rewrite app_nil_r in E.
    - rewrite join_cons by done. apply lstrip_word_app.
      by apply Forall_inv in Hws. }
  rewrite Hl.
  destruct (join_words_ends (w :: ws)) as (s & w0 & -> & Hw0); [done | done |].
  by apply rstrip_app_word.
Qed.

End StringFacts.

(** ** Text Normalizer *)

Section PreprocessText.
Import DocumentProcessor.

Lemma join_split_chars t c : c ∈ join space (split t) -> c = 32%N ∨ c ∈ t.
Proof.
  intros Hc. apply join_chars in Hc as [Hc | (w & Hw & Hc)].
  - left. by apply list_elem_of_singleton in Hc.
  - right. destruct (split_ws_from_chars _ _ _ _ Hw Hc) as [Hin | Hin];
      [by apply elem_of_nil in Hin | done].
Qed.

Lemma preprocess_text_clean t :
  no_artifacts t -> preprocess_text t = join space (split t).
Proof.
  intros [H0 Hr]. destruct t as [|c t]; [done |].
  unfold preprocess_text.
  rewrite (remove_char_absent 0).
  2:{ intros Hin. apply join_split_chars in Hin as [? | ?]; [done | by apply H0]. }
  rewrite (remove_char_absent 65533).
  2:{ intros Hin. apply join_split_chars in Hin as [? | ?]; [done | by apply Hr]. }
  apply strip_join_words, split_words.
Qed.

Lemma preprocess_text_no_artifacts t : no_artifacts (preprocess_text t).
Proof.
  destruct t as [|c t]; [split; apply not_elem_of_nil |].
  unfold preprocess_text. split; intros Hin; apply strip_subset in Hin.
  - apply remove_char_subset in Hin. by apply remove_char_gone in Hin.
  - by apply remove_char_gone in Hin.
Qed.

Lemma join_split_fixed t :
  no_artifacts t -> preprocess_text (join space (split t)) = join space (split t).
Proof.
  intros [H0 Hr]. rewrite preprocess_text_clean.
  - by rewrite split_join by apply split_words.
  - split; intros Hin; apply join_split_chars in Hin as [? | ?]; done.
Qed.

(** On a text without null and replacement characters one pass is enough. *)
Lemma preprocess_text_clean_idempotent (t : pystr) :
  no_artifacts t ->
  preprocess_text (preprocess_text t) = preprocess_text t.
Proof.
  intros Ht. rewrite (preprocess_text_clean t Ht). by apply join_split_fixed.
Qed.

(** Whatever the text, a second pass reaches the fixed point. *)
Lemma preprocess_text_settles (t : pystr) :
  preprocess_text (preprocess_text (preprocess_text t))
  = preprocess_text (preprocess_text t).
Proof.
  pose proof (preprocess_text_no_artifacts t) as Hclean.
  rewrite (preprocess_text_clean _ Hclean). by apply join_split_fixed.
Qed.

(** C4 as stated fails: a null character between two spaces leaves a double
    space that only a second pass collapses. *)
Lemma preprocess_text_not_idempotent :
  preprocess_text (lit "a " ++ [0%N] ++ lit " b") = lit "a  b" ∧
  preprocess_text (preprocess_text (lit "a " ++ [0%N] ++ lit " b")) = lit "a b" ∧
  preprocess_text (preprocess_text (lit "a " ++ [0%N] ++ lit " b"))
  ≠ preprocess_text (lit "a " ++ [0%N] ++ lit " b").
Proof. split; [| split]; [vm_compute; reflexivity .. | discriminate]. Qed.

End PreprocessText.

(** ** The Text Normalizer, word by word *)

Section PreprocessTextWords.
Import DocumentProcessor.

Lemma remove_char_app c a b :
  remove_char c (a ++ b) = remove_char c a ++ remove_char c b.
Proof. unfold remove_char. apply filter_app. Qed.

Lemma join_cons2 sep (w w' : pystr) ws :
  join sep (w :: w' :: ws) = w ++ sep ++ join sep (w' :: ws).
Proof. reflexivity. Qed.

Lemma remove_char_join c ws :
  c ≠ 32%N ->
  remove_char c (join space ws) = join space (map (remove_char c) ws).
Proof.
  intros Hc. induction ws as [|w ws IH]; [done |].
  destruct ws as [|w' ws']; [done |].
  change (map (remove_char c) (w :: w' :: ws'))
    with (remove_char c w :: remove_char c w' :: map (remove_char c) ws').
  rewrite !join_cons2, !remove_char_app, IH. f_equal. f_equal.
  unfold remove_char, space. rewrite filter_cons_True by done. done.
Qed.

Lemma clean_word_spaceless w : spaceless w -> spaceless (clean_word w).
Proof.
  unfold clean_word. rewrite !Forall_forall. intros Hw c Hc.
  apply Hw. by do 2 apply remove_char_subset in Hc.
Qed.

Lemma clean_join ws :
  remove_char 65533 (remove_char 0 (join space ws))
  = join space (map clean_word ws).
Proof.
  rewrite !remove_char_join by done. by rewrite map_map.
Qed.

(** *** Trimming a joined list of words *)

Lemma lstrip_join ws :
  Forall spaceless ws -> lstrip (join space ws) = join space (drop_empty ws).
Proof.
  induction 1 as [|w ws Hw Hws IH]; [done |].
  destruct w as [|c w].
  - destruct ws as [|w' ws']; [done |].
    change (drop_empty ([] :: w' :: ws')) with (drop_empty (w' :: ws')).
    rewrite <- IH. by rewrite join_cons2.
  - change (drop_empty ((c :: w) :: ws)) with ((c :: w) :: ws).
    apply Forall_cons in Hw as [Hc _].
    destruct ws as [|w' ws'].
    + unfold lstrip. simpl. by rewrite Hc.
    + rewrite join_cons by done. unfold lstrip. simpl. by rewrite Hc.
Qed.

Lemma join_snoc sep ws (w : pystr) :
  ws ≠ [] -> join sep (ws ++ [w]) = join sep ws ++ sep ++ w.
Proof.
  induction ws as [|w0 ws IH]; [done |]. intros _.
  destruct ws as [|w1 ws1]; [done |].
  change ((w0 :: w1 :: ws1) ++ [w]) with (w0 :: w1 :: (ws1 ++ [w])).
  rewrite !join_cons2.
  change (w1 :: (ws1 ++ [w])) with ((w1 :: ws1) ++ [w]).
  rewrite IH by done. by rewrite <- !app_assoc.
Qed.

Lemma rstrip_space s : rstrip (s ++ space) = rstrip s.
Proof. unfold rstrip, space. by rewrite reverse_app. Qed.

Lemma drop_empty_end_snoc_nil ws : drop_empty_end (ws ++ [[]]) = drop_empty_end ws.
Proof. unfold drop_empty_end. by rewrite reverse_app. Qed.

Lemma drop_empty_end_snoc_word ws c w :
  drop_empty_end (ws ++ [c :: w]) = ws ++ [c :: w].
Proof.
  unfold drop_empty_end. rewrite reverse_app. simpl.
  change ((c :: w) :: reverse ws) with (reverse [c :: w] ++ reverse ws).
  by rewrite <- reverse_app, reverse_involutive.
Qed.

Lemma rstrip_join ws :
  Forall spaceless ws ->
  rstrip (join space ws) = join space (drop_empty_end ws).
Proof.
  induction ws as [|w ws IH] using rev_ind; [done |].
  intros Hall. apply Forall_app in Hall as [Hws Hw].
  apply Forall_inv in Hw.
  destruct w as [|c w].
  - rewrite drop_empty_end_snoc_nil, <- IH by done.
    destruct ws as [|w0 ws0]; [done |].
    rewrite join_snoc by done. rewrite app_nil_r. apply rstrip_space.
  - rewrite drop_empty_end_snoc_word.
    assert (Hword : is_word (c :: w)) by done.
    destruct ws as [|w0 ws0].
    + simpl. by apply (rstrip_app_word []).
    + rewrite join_snoc by done. rewrite app_assoc.
      by apply rstrip_app_word.
Qed.

Lemma drop_empty_spaceless ws : Forall spaceless ws -> Forall spaceless (drop_empty ws).
Proof.
  induction 1 as [|w ws Hw Hws IH]; [done |].
  destruct w; simpl; [done | by constructor].
Qed.

Lemma strip_join ws :
  Forall spaceless ws -> strip (join space ws) = join space (trim_empty ws).
Proof.
  intros Hws. unfold strip, trim_empty.
  rewrite lstrip_join by done. apply rstrip_join.
  by apply drop_empty_spaceless.
Qed.

Lemma split_spaceless t : Forall spaceless (split t).
Proof.
  eapply Forall_impl; [apply split_words |]. by intros w [_ Hw].
Qed.

Lemma cleaned_spaceless t : Forall spaceless (map clean_word (split t)).
Proof.
  apply Forall_fmap. eapply Forall_impl; [apply split_spaceless |].
  intros w Hw. by apply clean_word_spaceless.
Qed.

(** The normalizer gives the cleaned words, without the empty ones at the
    ends, joined by single spaces. *)
Lemma preprocess_text_words t :
  preprocess_text t = join space (trim_empty (map clean_word (split t))).
Proof.
  destruct t as [|c t]; [done |].
  unfold preprocess_text. rewrite clean_join.
  apply strip_join, cleaned_spaceless.
Qed.

(** *** Splitting a joined list of words *)

Lemma split_join_filter ws :
  Forall spaceless ws ->
  split (join space ws) = filter (fun w => w ≠ []) ws.
Proof.
  unfold split. induction 1 as [|w ws Hw Hws IH]; [done |].
  assert (Hhead : ∀ rest,
    (match w with [] => rest | _ => w :: rest end)
    = filter (fun w => w ≠ []) [w] ++ rest).
  { intros rest. by destruct w. }
  change (w :: ws) with ([w] ++ ws). rewrite filter_app, <- IH, <- Hhead.
  destruct ws as [|w' ws'].
  - simpl. pose proof (split_ws_from_app [] w [] Hw) as E.
    rewrite app_nil_r in E. simpl in E. rewrite E. by destruct w.
  - change ([w] ++ w' :: ws') with (w :: w' :: ws').
    rewrite join_cons by done. rewrite split_ws_from_app by done.
    simpl app at 1. simpl. by destruct w.
Qed.

End PreprocessTextWords.

Section PreprocessTextFixedPoints.
Import DocumentProcessor.

Lemma filter_nonempty_id (ws : list pystr) :
  Forall (fun w => w ≠ []) ws -> filter (fun w => w ≠ []) ws = ws.
Proof.
  induction 1 as [|w ws Hw _ IH]; [done |].
  by rewrite filter_cons_True, IH.
Qed.

Lemma filter_nonempty_length (ws : list pystr) :
  length (filter (fun w => w ≠ []) ws) = length ws ->
  Forall (fun w => w ≠ []) ws.
Proof.
  induction ws as [|w ws IH]; [done |].
  rewrite filter_cons. case_decide as Hw; simpl.
  - intros [= Hlen]. constructor; [done | by apply IH].
  - intros Hlen.
    pose proof (length_filter (fun w : pystr => w ≠ []) ws). lia.
Qed.

Lemma filter_nonempty_concat (ws : list pystr) :
  concat (filter (fun w => w ≠ []) ws) = concat ws.
Proof.
  induction ws as [|w ws IH]; [done |].
  destruct w as [|c w].
  - rewrite filter_cons_False by (intros Hw; by apply Hw). by simpl.
  - rewrite filter_cons_True by done. simpl. by rewrite IH.
Qed.

Lemma join_length (ws : list pystr) :
  ws ≠ [] ->
  length (join space ws) + 1 = length (concat ws) + length ws.
Proof.
  induction ws as [|w ws IH]; [done |]. intros _.
  destruct ws as [|w' ws'].
  - simpl. rewrite app_nil_r. lia.
  - rewrite join_cons2. simpl concat. rewrite !length_app.
    specialize (IH ltac:(done)). simpl concat in IH. simpl length in *.
    rewrite length_app in IH. lia.
Qed.

Lemma drop_empty_head ws :
  drop_empty ws = [] ∨ ∃ c w rest, drop_empty ws = (c :: w) :: rest.
Proof.
  induction ws as [|w ws IH]; [by left |].
  destruct w as [|c w]; [done |]. right. by exists c, w, ws.
Qed.

Lemma drop_empty_app_word ws c w rest :
  drop_empty (ws ++ (c :: w) :: rest) = drop_empty ws ++ (c :: w) :: rest.
Proof.
  induction ws as [|w0 ws IH]; [done |]. by destruct w0.
Qed.

Lemma drop_empty_end_cons c w rest :
  drop_empty_end ((c :: w) :: rest) = (c :: w) :: drop_empty_end rest.
Proof.
  unfold drop_empty_end. rewrite reverse_cons, drop_empty_app_word.
  by rewrite reverse_app.
Qed.

Lemma trim_empty_head ws :
  trim_empty ws = [] ∨ ∃ c w rest, trim_empty ws = (c :: w) :: rest.
Proof.
  unfold trim_empty.
  destruct (drop_empty_head ws) as [-> | (c & w & rest & ->)]; [by left |].
  right. rewrite drop_empty_end_cons. by eexists _, _, _.
Qed.

Lemma trim_empty_spaceless ws :
  Forall (Forall (fun c => isspace c = false)) ws ->
  Forall (Forall (fun c => isspace c = false)) (trim_empty ws).
Proof.
  intros Hws. unfold trim_empty, drop_empty_end.
  apply Forall_reverse, drop_empty_spaceless, Forall_reverse.
  by apply drop_empty_spaceless.
Qed.

(** A second pass deletes the empty words that the first left inside. *)
Lemma preprocess_text_twice t :
  preprocess_text (preprocess_text t)
  = join space (filter (fun w => w ≠ [])
                       (trim_empty (map clean_word (split t)))).
Proof.
  rewrite (preprocess_text_clean _ (preprocess_text_no_artifacts t)).
  rewrite preprocess_text_words.
  rewrite split_join_filter; [done |].
  apply trim_empty_spaceless, cleaned_spaceless.
Qed.

Lemma preprocess_text_fixed_iff t :
  preprocess_text (preprocess_text t) = preprocess_text t ↔
  Forall (fun w => w ≠ []) (trim_empty (map clean_word (split t))).
Proof.
  rewrite preprocess_text_twice, preprocess_text_words.
  set (ws := trim_empty (map clean_word (split t))).
  split.
  - intros Heq.
    destruct (trim_empty_head (map clean_word (split t)))
      as [Hnil | (c & w & rest & Hcons)]; fold ws in Hnil || fold ws in Hcons.
    + by rewrite Hnil.
    + apply filter_nonempty_length.
      assert (Hne : ws ≠ []) by by rewrite Hcons.
      assert (Hne' : filter (fun w => w ≠ []) ws ≠ []).
      { rewrite Hcons, filter_cons_True by done. done. }
      pose proof (join_length ws Hne) as H1.
      pose proof (join_length _ Hne') as H2.
      rewrite filter_nonempty_concat, Heq in H2. lia.
  - intros Hall. by rewrite filter_nonempty_id.
Qed.

(** *** The words at the ends *)

Lemma drop_empty_all_empty (ws rest : list pystr) :
  Forall (fun w => w = []) ws -> drop_empty (ws ++ rest) = drop_empty rest.
Proof. induction 1 as [|w ws -> _ IH]; [done | done]. Qed.

Lemma drop_empty_nonempty (ws : list pystr) :
  Forall (fun w => w ≠ []) ws -> drop_empty ws = ws.
Proof. destruct 1 as [|w ws Hw _]; [done |]. by destruct w. Qed.

Lemma trim_empty_middle (empty kept empty' : list pystr) :
  Forall (fun w => w = []) empty ->
  Forall (fun w => w ≠ []) kept ->
  Forall (fun w => w = []) empty' ->
  trim_empty (empty ++ kept ++ empty') = kept.
Proof.
  intros He Hk He'. unfold trim_empty. rewrite drop_empty_all_empty by done.
  destruct kept as [|k kept].
  - simpl. pose proof (drop_empty_all_empty empty' [] He') as E.
    rewrite app_nil_r in E. rewrite E. done.
  - assert (Hk1 : k ≠ []) by by apply Forall_inv in Hk.
    assert (Hd : drop_empty ((k :: kept) ++ empty') = (k :: kept) ++ empty')
      by by destruct k.
    rewrite Hd. unfold drop_empty_end.
    rewrite reverse_app, drop_empty_all_empty by by apply Forall_reverse.
    rewrite drop_empty_nonempty by by apply Forall_reverse.
    apply reverse_involutive.
Qed.

Lemma drop_empty_prefix (ws : list pystr) :
  ∃ empty, ws = empty ++ drop_empty ws ∧ Forall (fun w => w = []) empty.
Proof.
  induction ws as [|w ws (empty & IH & He)]; [by exists [] |].
  destruct w as [|c w].
  - exists ([] :: empty). simpl. split; [by rewrite <- IH | by constructor].
  - by exists [].
Qed.

Lemma drop_empty_end_suffix (ws : list pystr) :
  ∃ empty, ws = drop_empty_end ws ++ empty ∧ Forall (fun w => w = []) empty.
Proof.
  destruct (drop_empty_prefix (reverse ws)) as (empty & Heq & He).
  exists (reverse empty). split; [| by apply Forall_reverse].
  unfold drop_empty_end. rewrite <- reverse_app, <- Heq.
  by rewrite reverse_involutive.
Qed.

Lemma trim_empty_parts (ws : list pystr) :
  ∃ empty empty',
    ws = empty ++ trim_empty ws ++ empty' ∧
    Forall (fun w => w = []) empty ∧ Forall (fun w => w = []) empty'.
Proof.
  destruct (drop_empty_prefix ws) as (empty & Heq & He).
  destruct (drop_empty_end_suffix (drop_empty ws)) as (empty' & Heq' & He').
  exists empty, empty'. unfold trim_empty. by rewrite <- Heq', <- Heq.
Qed.

Lemma trimmed_nonempty_iff t :
  Forall (fun w => w ≠ []) (trim_empty (map clean_word (split t))) ↔
  vanishing_words_at_ends t.
Proof.
  split.
  - intros Hall.
    destruct (trim_empty_parts (map clean_word (split t)))
      as (empty & empty' & Heq & He & He').
    apply fmap_app_inv in Heq as (before & rest & Hb & Hrest & Hsplit).
    symmetry in Hrest.
    apply fmap_app_inv in Hrest as (kept & after & Hk & Ha & Hrest').
    exists before, kept, after. subst rest. split; [done |].
    rewrite Hb in He. rewrite Ha in He'. rewrite Hk in Hall.
    rewrite Forall_fmap in He, He', Hall. done.
  - intros (before & kept & after & Hsplit & Hb & Hk & Ha).
    rewrite Hsplit, !map_app.
    rewrite trim_empty_middle; by apply Forall_fmap.
Qed.

(** C4, amended: a second pass of the normalizer changes nothing exactly
    when no word made of null and replacement characters only stands between
    two words that are not; such words at the start or the end do no harm. *)
Theorem preprocess_text_idempotent_iff (t : pystr) :
  preprocess_text (preprocess_text t) = preprocess_text t ↔
  vanishing_words_at_ends t.
Proof.
  rewrite <- trimmed_nonempty_iff. apply preprocess_text_fixed_iff.
Qed.

End PreprocessTextFixedPoints.

Section PreprocessTextFixedPointExamples.
Import DocumentProcessor.

(** Replacement and null characters inside words, and a word of them at the
    start, do not stand in the way. *)
Lemma preprocess_text_idempotent_iff_witness :
  let inside := lit "  caf" ++ [65533%N] ++ lit "  au" ++ [0%N] ++ lit " lait " in
  let leading := [0%N] ++ lit " a b" in
  vanishing_words_at_ends inside ∧
  preprocess_text (preprocess_text inside) = preprocess_text inside ∧
  preprocess_text inside = lit "caf au lait" ∧
  vanishing_words_at_ends leading ∧
  preprocess_text (preprocess_text leading) = preprocess_text leading ∧
  preprocess_text leading = lit "a b".
Proof.
  cbv zeta.
  assert (Hinside : vanishing_words_at_ends
            (lit "  caf" ++ [65533%N] ++ lit "  au" ++ [0%N] ++ lit " lait ")).
  { exists [], [lit "caf" ++ [65533%N]; lit "au" ++ [0%N]; lit "lait"], [].
    split; [vm_compute; reflexivity |]. split; [constructor |].
    split; [| constructor].
    repeat (constructor; [vm_compute; discriminate |]). constructor. }
  assert (Hleading : vanishing_words_at_ends ([0%N] ++ lit " a b")).
  { exists [[0%N]], [lit "a"; lit "b"], [].
    split; [vm_compute; reflexivity |].
    split; [constructor; [vm_compute; reflexivity | constructor] |].
    split; [| constructor].
    repeat (constructor; [vm_compute; discriminate |]). constructor. }
  split; [exact Hinside |].
  split; [exact (proj2 (preprocess_text_idempotent_iff _) Hinside) |].
  split; [vm_compute; reflexivity |].
  split; [exact Hleading |].
  split; [exact (proj2 (preprocess_text_idempotent_iff _) Hleading) |].
  vm_compute. reflexivity.
Defined.

(** A word of them between two others does. *)
Example vanishing_word_inside :
  ¬ vanishing_words_at_ends (lit "a " ++ [0%N] ++ lit " b").
Proof.
  intros Hends. apply trimmed_nonempty_iff, preprocess_text_fixed_iff in Hends.
  vm_compute in Hends. discriminate.
Qed.

End PreprocessTextFixedPointExamples.

(** ** Fallback Insight Estimator *)

Section BasicInsights.
Context `{Platform}.
Import GeminiAnalyzer.

Lemma split_ws_from_nil s : forall cur,
  split_ws_from cur s = [] -> cur = [] ∧ Forall (fun c => isspace c = true) s.
Proof.
  induction s as [|c s IH]; intros cur; simpl.
  - by destruct cur.
  - destruct (isspace c) eqn:Hc.
    + destruct cur; [| done]. intros Hs.
      destruct (IH _ Hs) as [_ Hall]. by split; [| constructor].
    + intros Hs. destruct (IH _ Hs) as [Hcur _]. by destruct cur.
Qed.

Lemma isspace_not_upper c : isspace c = true -> py_isupper c = false.
Proof.
  intros Hc. unfold py_isupper, is_ascii.
  destruct (N.ltb_spec c 128) as [Hlt | Hge]; [| by apply uc_space_not_upper].
  unfold isspace in Hc.
  rewrite !orb_true_iff, !andb_true_iff, !N.leb_le, !N.eqb_eq in Hc.
  apply andb_false_iff. rewrite !N.leb_gt. lia.
Qed.

Lemma no_words_no_upper text :
  split text = [] -> filter (fun c => py_isupper c = true) text = [].
Proof.
  intros Hs. apply split_ws_from_nil in Hs as [_ Hall].
  induction Hall as [|c s Hc _ IH]; [done |].
  rewrite filter_cons_False; [done |].
  rewrite (isspace_not_upper c Hc). done.
Qed.

Lemma uppercase_letter_agrees c : py_isupper c = is_uppercase_letter c.
Proof.
  unfold py_isupper, is_uppercase_letter, is_ascii.
  destruct (c <? 128)%N; [| done].
  case_bool_decide as Hc.
  - apply andb_true_iff. rewrite !N.leb_le. lia.
  - apply andb_false_iff. rewrite !N.leb_gt. lia.
Qed.

(** The list comprehension of the source counts what the specification
    counts. *)
Lemma uppercase_letter_count_counts text :
  uppercase_letter_count text = count_uppercase_letters text.
Proof.
  unfold uppercase_letter_count.
  induction text as [|c text IH]; [done |].
  rewrite filter_cons. simpl count_uppercase_letters.
  rewrite <- IH, <- uppercase_letter_agrees.
  destruct (py_isupper c); case_decide; try done.
  simpl length. lia.
Qed.

Lemma count_uppercase_letters_app a b :
  count_uppercase_letters (a ++ b)
  = (count_uppercase_letters a + count_uppercase_letters b)%Z.
Proof.
  induction a as [|c a IH]; simpl; [done |]. rewrite IH. lia.
Qed.

(** C5: the five entries of the fallback insights, with the uppercase
    letters counted one by one, the clamp, and the values for a text without
    words. *)
Theorem generate_basic_insights_spec (text : pystr) :
  let word_count := Z.of_nat (length (split text)) in
  let uppercase_letter_count := count_uppercase_letters text in
  let score := Z.min 10 (Z.max 1 (word_count / 500 + uppercase_letter_count / 100)) in
  let ins := _generate_basic_insights text in
  ins !! "word_count" = Some (VInt word_count) ∧
  ins !! "character_count" = Some (VInt (Z.of_nat (length text))) ∧
  ins !! "complexity_score" = Some (VInt score) ∧
  (1 <= score <= 10)%Z ∧
  ins !! "complexity_level" =
    Some (VStr (if bool_decide (score <= 3)%Z then lit "Low"
                else if bool_decide (score <= 7)%Z then lit "Medium"
                else lit "High")) ∧
  ins !! "estimated_reading_time" =
    Some (VStr (lit (pretty (word_count / 200 + 1)%Z) ++ lit " minutes")) ∧
  (word_count = 0%Z ->
   ins !! "complexity_score" = Some (VInt 1) ∧
   ins !! "complexity_level" = Some (VStr (lit "Low")) ∧
   ins !! "estimated_reading_time" = Some (VStr (lit "1 minutes"))).
Proof.
  intros word_count upper_count score ins.
  assert (Hscore : ins !! "complexity_score" = Some (VInt score)).
  { subst ins score upper_count. unfold _generate_basic_insights.
    rewrite !lookup_insert_ne, lookup_insert_eq by done.
    by rewrite uppercase_letter_count_counts. }
  assert (Hlevel : ins !! "complexity_level" =
    Some (VStr (if bool_decide (score <= 3)%Z then lit "Low"
                else if bool_decide (score <= 7)%Z then lit "Medium"
                else lit "High"))).
  { subst ins. unfold _generate_basic_insights.
    rewrite !lookup_insert_ne, lookup_insert_eq by done.
    rewrite uppercase_letter_count_counts.
    fold word_count. fold upper_count. fold score.
    do 2 f_equal.
    destruct (Z.leb_spec score 3), (Z.leb_spec score 7);
      repeat case_bool_decide; done || lia. }
  assert (Htime : ins !! "estimated_reading_time" =
    Some (VStr (lit (pretty (word_count / 200 + 1)%Z) ++ lit " minutes"))) by done.
  assert (Hempty : word_count = 0%Z -> score = 1%Z).
  { intros Hwc. subst score upper_count.
    rewrite <- uppercase_letter_count_counts.
    unfold GeminiAnalyzer.uppercase_letter_count.
    rewrite no_words_no_upper; [by rewrite Hwc |].
    apply length_zero_iff_nil. subst word_count. lia. }
  split; [done |]. split; [done |]. split; [done |].
  split; [subst score; lia |]. split; [done |]. split; [done |].
  intros Hwc. rewrite Hscore, Hlevel, Htime, (Hempty Hwc), Hwc. done.
Qed.

Lemma split_one_word w : is_word w -> split w = [w].
Proof.
  intros [Hne Hw]. unfold split.
  pose proof (split_ws_from_app [] w [] Hw) as E.
  rewrite app_nil_r in E. rewrite E. simpl. by destruct w.
Qed.

Lemma count_uppercase_capitals n :
  count_uppercase_letters (repeat 65%N n) = Z.of_nat n.
Proof.
  induction n as [|n IH]; [done |].
  change (repeat 65%N (S n)) with (65%N :: repeat 65%N n).
  simpl count_uppercase_letters. rewrite IH.
  change (is_uppercase_letter 65) with true. lia.
Qed.

(** Capitals alone set the score: a word of [n] letters A scores [n / 100],
    clamped to 1 and 10. *)
Lemma capitals_raise_the_score (n : nat) :
  0 < n ->
  _generate_basic_insights (repeat 65%N n) !! "complexity_score"
  = Some (VInt (Z.min 10 (Z.max 1 (Z.of_nat n / 100)))).
Proof.
  intros Hn. unfold _generate_basic_insights.
  rewrite !lookup_insert_ne, lookup_insert_eq by done.
  rewrite uppercase_letter_count_counts, count_uppercase_capitals.
  rewrite split_one_word.
  2:{ split; [destruct n; [lia | done] |]. apply Forall_forall.
      intros c Hc. apply list_elem_of_In, repeat_spec in Hc. by subst. }
  done.
Qed.

End BasicInsights.

Section BasicInsightsExamples.
Import GeminiAnalyzer.

Lemma generate_basic_insights_spec_witness :
  Z.of_nat (length (split (lit "  "))) = 0%Z ∧
  _generate_basic_insights (lit "  ") !! "complexity_score" = Some (VInt 1) ∧
  _generate_basic_insights (lit "  ") !! "complexity_level"
    = Some (VStr (lit "Low")) ∧
  _generate_basic_insights (lit "  ") !! "estimated_reading_time"
    = Some (VStr (lit "1 minutes")) ∧
  count_uppercase_letters (lit "RENT: " ++ repeat 65%N 246) = 250%Z ∧
  _generate_basic_insights (lit "RENT: " ++ repeat 65%N 246) !! "complexity_score"
    = Some (VInt 2).
Proof.
  split; [reflexivity |].
  destruct (generate_basic_insights_spec (lit "  "))
    as (_ & _ & _ & _ & _ & _ & Hempty).
  destruct (Hempty eq_refl) as (Hs & Hl & Ht).
  split; [exact Hs |]. split; [exact Hl |]. split; [exact Ht |].
  split; [vm_compute; reflexivity |].
  destruct (generate_basic_insights_spec (lit "RENT: " ++ repeat 65%N 246))
    as (_ & _ & Hscore & _).
  exact Hscore.
Defined.

(** Two words, 102 capitals: score 0 + 1. *)
Example basic_insights_capitals :
  let text := lit "NOTICE " ++ repeat 65%N 96 in
  _generate_basic_insights text !! "word_count" = Some (VInt 2) ∧
  _generate_basic_insights text !! "character_count" = Some (VInt 103) ∧
  _generate_basic_insights text !! "complexity_score" = Some (VInt 1).
Proof. vm_compute. done. Qed.

(** Capitals raise the score and the level; small letters do not. *)
Example basic_insights_shouting :
  let score text := _generate_basic_insights text !! "complexity_score" in
  let level text := _generate_basic_insights text !! "complexity_level" in
  score (repeat 65%N 250) = Some (VInt 2) ∧
  level (repeat 65%N 250) = Some (VStr (lit "Low")) ∧
  score (repeat 65%N 450) = Some (VInt 4) ∧
  level (repeat 65%N 450) = Some (VStr (lit "Medium")) ∧
  score (repeat 65%N 800) = Some (VInt 8) ∧
  level (repeat 65%N 800) = Some (VStr (lit "High")) ∧
  score (repeat 65%N 1500) = Some (VInt 10) ∧
  score (repeat 97%N 1500) = Some (VInt 1) ∧
  level (repeat 97%N 1500) = Some (VStr (lit "Low")).
Proof. vm_compute. done. Qed.

(** Words raise the score and the reading time: 2000 words, 2005 capitals,
    so 4 + 20, clamped. *)
Example basic_insights_long :
  let text := lit "CLAUSE" ++ concat (repeat (lit " Aa") 1999) in
  _generate_basic_insights text !! "word_count" = Some (VInt 2000) ∧
  _generate_basic_insights text !! "character_count" = Some (VInt 6003) ∧
  _generate_basic_insights text !! "complexity_score" = Some (VInt 10) ∧
  _generate_basic_insights text !! "complexity_level" = Some (VStr (lit "High")) ∧
  _generate_basic_insights text !! "estimated_reading_time"
    = Some (VStr (lit "11 minutes")).
Proof. vm_compute. done. Qed.

(** 2000 words in small letters: 4 + 0, Medium. *)
Example basic_insights_words :
  let text := lit "clause" ++ concat (repeat (lit " aa") 1999) in
  _generate_basic_insights text !! "word_count" = Some (VInt 2000) ∧
  _generate_basic_insights text !! "complexity_score" = Some (VInt 4) ∧
  _generate_basic_insights text !! "complexity_level" = Some (VStr (lit "Medium")) ∧
  _generate_basic_insights text !! "estimated_reading_time"
    = Some (VStr (lit "11 minutes")).
Proof. vm_compute. done. Qed.

End BasicInsightsExamples.

(** ** AI Response Structurer *)

Section Structurer.
Context `{Platform}.
Import GeminiAnalyzer.

Lemma collect_items_ok content : forall points,
  Forall (fun line => line ≠ []) content ->
  ∃ items, collect_items content points = Ok items.
Proof.
  induction content as [|line rest IH]; intros points Hall; simpl.
  - by eexists.
  - apply Forall_cons in Hall as [Hline Hrest].
    destruct (starts_with_bullet line); simpl.
    + by apply IH.
    + destruct line as [|c line]; [done |]. simpl.
      destruct (py_isdigit c); [by apply IH |].
      destruct (nonempty (strip (c :: line))); by apply IH.
Qed.

Lemma flush_no_insights st :
  no_insights_yet st -> ∃ r, flush st = Ok r ∧ insights r = ∅.
Proof.
  intros (Hins & Hsec & Hcontent). unfold flush.
  destruct (current_section st) as [sec|]; [| by exists (result st)].
  destruct (current_content st) as [|l ls] eqn:Hc; [by exists (result st) |].
  destruct sec; unfold _process_section.
  - eexists. split; [reflexivity | exact Hins].
  - destruct (collect_items_ok (l :: ls) [] Hcontent) as [items ->].
    eexists. split; [reflexivity | exact Hins].
  - done.
  - eexists. split; [reflexivity | exact Hins].
  - destruct (collect_items_ok (l :: ls) [] Hcontent) as [items ->].
    eexists. split; [reflexivity | exact Hins].
Qed.

Lemma parse_line_no_insights st line :
  no_insights_yet st -> header_of (strip line) ≠ Some Insights ->
  ∃ st', parse_line st line = Ok st' ∧ no_insights_yet st'.
Proof.
  intros Hst Hline. unfold parse_line.
  destruct (header_of (strip line)) as [sec|] eqn:Hh.
  - destruct (flush_no_insights st Hst) as (r & -> & Hr). simpl.
    eexists. split; [done |]. repeat split; simpl; [done | congruence | done].
  - destruct (nonempty (strip line)) eqn:Hne; simpl; [| by eexists].
    destruct (startswith (strip line) (lit "#")); simpl; [by eexists |].
    eexists. split; [done |]. destruct Hst as (? & ? & ?).
    repeat split; simpl; [done | done |].
    apply Forall_app. split; [done |]. constructor; [| done].
    by destruct (strip line).
Qed.

Lemma parse_lines_no_insights lines : forall st,
  no_insights_yet st ->
  Forall (fun line => header_of (strip line) ≠ Some Insights) lines ->
  ∃ st', parse_lines st lines = Ok st' ∧ no_insights_yet st'.
Proof.
  induction lines as [|line rest IH]; intros st Hst Hall; simpl.
  - by eexists.
  - apply Forall_cons in Hall as [Hline Hrest].
    destruct (parse_line_no_insights st line Hst Hline) as (st1 & -> & Hst1).
    simpl. by apply IH.
Qed.

(** A reply without an insights header is structured without error and
    leaves the insights mapping empty. *)
Lemma structure_lines_no_insights lines response_text :
  Forall (fun line => header_of (strip line) ≠ Some Insights) lines ->
  ∃ r, structure_lines lines response_text = Ok r ∧ insights r = ∅.
Proof.
  intros Hall. unfold structure_lines.
  set (st0 := {| result := initial_result response_text;
                 current_section := None; current_content := [] |}).
  assert (Hst0 : no_insights_yet st0) by (split; [done | split; [done | constructor]]).
  destruct (parse_lines_no_insights lines st0 Hst0 Hall) as (st & -> & Hst).
  simpl. by apply flush_no_insights.
Qed.

Lemma basic_insights_nonempty text : _generate_basic_insights text ≠ ∅.
Proof. unfold _generate_basic_insights. apply insert_non_empty. Qed.

Lemma fallback_after_structure response_text original_text structured :
  structure_lines (split_on newline response_text) response_text
    = Ok structured ->
  insights structured = ∅ ->
  _parse_analysis_response response_text original_text
  = Ok (set_insights structured (_generate_basic_insights original_text)).
Proof.
  intros Hs Hempty.
  unfold _parse_analysis_response, parse_response_lines. rewrite Hs. simpl.
  unfold add_basic_insights. by rewrite bool_decide_eq_true_2.
Qed.

(** C6: when structuring the reply leaves the insights mapping empty, the
    returned record carries the fallback insights of the original text, and
    these are not empty. *)
Theorem parse_falls_back_to_basic_insights
    (response_text original_text : pystr) (structured : analysis) :
  structure_lines (split_on newline response_text) response_text
    = Ok structured ->
  insights structured = ∅ ->
  ∃ r, _parse_analysis_response response_text original_text = Ok r ∧
       insights r = _generate_basic_insights original_text ∧
       insights r ≠ ∅ ∧
       r = set_insights structured (_generate_basic_insights original_text).
Proof.
  intros Hs Hempty. eexists.
  split; [by apply fallback_after_structure |].
  split; [done |]. split; [| done]. apply basic_insights_nonempty.
Qed.

(** Whatever the reply, a returned record has insights. *)
Lemma parse_insights_nonempty response_text original_text r :
  _parse_analysis_response response_text original_text = Ok r ->
  insights r ≠ ∅.
Proof.
  unfold _parse_analysis_response, parse_response_lines.
  destruct (structure_lines _ _) as [s|e]; simpl; [| done].
  intros [= <-]. unfold add_basic_insights. case_bool_decide; [| done].
  apply basic_insights_nonempty.
Qed.

(** And when no line of the reply carries an insights header, a record is
    returned and its insights are the fallback ones. *)
Lemma parse_without_insights_header response_text original_text :
  Forall (fun line => header_of (strip line) ≠ Some Insights)
         (split_on newline response_text) ->
  ∃ r, _parse_analysis_response response_text original_text = Ok r ∧
       insights r = _generate_basic_insights original_text.
Proof.
  intros Hall.
  destruct (structure_lines_no_insights _ response_text Hall) as (s & Hs & He).
  eexists. split; [by apply fallback_after_structure |]. done.
Qed.

End Structurer.

Section StructurerLines.
Context `{Platform}.
Import GeminiAnalyzer.

Lemma parse_lines_app before after : forall st,
  parse_lines st (before ++ after)
  = bind_outcome (parse_lines st before) (fun st' => parse_lines st' after).
Proof.
  induction before as [|line rest IH]; intros st; simpl; [done |].
  destruct (parse_line st line) as [st1|e]; simpl; [apply IH | done].
Qed.

Lemma parse_line_hash st line :
  startswith (strip line) (lit "#") = true ->
  header_of (strip line) = None ->
  parse_line st line = Ok st.
Proof.
  intros Hhash Hheader. unfold parse_line. rewrite Hheader, Hhash.
  by rewrite andb_false_r.
Qed.

(** C9: a non-empty line that starts with '#' and holds no header synonym
    leaves the parser as it was, so the record returned is the one the other
    lines give. *)
Theorem hash_line_discarded
    (response_text original_text : pystr) (before after : list pystr)
    (line : pystr) :
  split_on newline response_text = before ++ line :: after ->
  strip line ≠ [] ->
  startswith (strip line) (lit "#") = true ->
  header_of (strip line) = None ->
  (∀ st, parse_line st line = Ok st) ∧
  _parse_analysis_response response_text original_text
  = parse_response_lines (before ++ after) response_text original_text.
Proof.
  intros Hlines _ Hhash Hheader.
  split; [intros st; by apply parse_line_hash |].
  unfold _parse_analysis_response, parse_response_lines, structure_lines.
  rewrite Hlines, !parse_lines_app.
  destruct (parse_lines _ before) as [st|e]; simpl; [| done].
  by rewrite parse_line_hash.
Qed.

End StructurerLines.

Section StructurerExamples.
Import GeminiAnalyzer.

Lemma hash_line_discarded_witness :
  split_on newline hash_reply = [lit "Summary"] ++ lit "# Overview" :: [lit "A lease."] ∧
  strip (lit "# Overview") ≠ [] ∧
  startswith (strip (lit "# Overview")) (lit "#") = true ∧
  header_of (strip (lit "# Overview")) = None ∧
  _parse_analysis_response hash_reply []
  = parse_response_lines ([lit "Summary"] ++ [lit "A lease."]) hash_reply [].
Proof.
  assert (H1 : split_on newline hash_reply
               = [lit "Summary"] ++ lit "# Overview" :: [lit "A lease."])
    by (vm_compute; reflexivity).
  assert (H2 : strip (lit "# Overview") ≠ []) by (vm_compute; discriminate).
  assert (H3 : startswith (strip (lit "# Overview")) (lit "#") = true)
    by (vm_compute; reflexivity).
  assert (H4 : header_of (strip (lit "# Overview")) = None)
    by (vm_compute; reflexivity).
  split; [exact H1 |]. split; [exact H2 |]. split; [exact H3 |].
  split; [exact H4 |].
  exact (proj2 (hash_line_discarded hash_reply [] _ _ _ H1 H2 H3 H4)).
Defined.

Example hash_reply_summary :
  summary <$> _parse_analysis_response hash_reply [] = Ok (lit "A lease.").
Proof. vm_compute. reflexivity. Qed.

End StructurerExamples.

Section StructurerFixture.
Import GeminiAnalyzer.

Lemma parse_falls_back_to_basic_insights_witness :
  structure_lines (split_on newline three_section_reply) three_section_reply
    = Ok three_section_structured ∧
  insights three_section_structured = ∅ ∧
  ∃ r, _parse_analysis_response three_section_reply lease_text = Ok r ∧
       insights r = _generate_basic_insights lease_text ∧
       insights r ≠ ∅ ∧
       r = set_insights three_section_structured
             (_generate_basic_insights lease_text).
Proof.
  assert (H1 : structure_lines (split_on newline three_section_reply)
                 three_section_reply = Ok three_section_structured)
    by (vm_compute; reflexivity).
  assert (H2 : insights three_section_structured = ∅) by reflexivity.
  split; [exact H1 |]. split; [exact H2 |].
  exact (parse_falls_back_to_basic_insights _ lease_text _ H1 H2).
Defined.

Example three_section_insights :
  (fun r => insights r !! "word_count") <$>
    _parse_analysis_response three_section_reply lease_text
  = Ok (Some (VInt 8)).
Proof. vm_compute. reflexivity. Qed.

End StructurerFixture.

Section InsightsFixture.
Context `{Platform}.
Import GeminiAnalyzer.

Lemma fixture_is_header : header_of (strip fixture) = Some Insights.
Proof. vm_compute. reflexivity. Qed.

Lemma scan_fixture (found : gmap string pyval) :
  scan_insight_line found fixture
  = Ok (<["legal_areas" := VList fixture_areas]>
          (<["complexity_score" := VInt 7]> found)).
Proof.
  unfold scan_insight_line.
  replace (lower fixture)
    with (lit "legal insights: complexity 7, area contract law, tort")
    by (vm_compute; reflexivity).
  replace (contains (lit "complexity") _) with true by (vm_compute; reflexivity).
  replace (existsb py_isdigit fixture) with true by (vm_compute; reflexivity).
  replace (contains (lit "legal area") _) with false by (vm_compute; reflexivity).
  replace (contains (lit "area") _) with true by (vm_compute; reflexivity).
  replace (contains (lit "sentiment") _) with false by (vm_compute; reflexivity).
  replace (contains (lit "tone") _) with false by (vm_compute; reflexivity).
  replace (stripped_nonempty (split_on 44 fixture)) with fixture_areas
    by (vm_compute; reflexivity).
  simpl andb. simpl orb. cbv iota.
  assert (Hscore : set_complexity_score fixture found
                   = Ok (<["complexity_score" := VInt 7]> found)).
  { unfold fixture, lit. simpl list_ascii_of_string. simpl map.
    repeat (simpl set_complexity_score;
            match goal with
            | |- context [py_isdigit ?c] =>
                let b := eval vm_compute in (py_isdigit c) in
                change (py_isdigit c) with b; cbv iota
            end).
    vm_compute py_int. reflexivity. }
  rewrite Hscore. reflexivity.
Qed.

Lemma bind_outcome_ok {A B} (a : A) (k : A -> outcome B) :
  bind_outcome (Ok a) k = k a.
Proof. reflexivity. Qed.

Lemma scan_insights_app content more : forall found,
  scan_insights (content ++ more) found
  = bind_outcome (scan_insights content found)
                 (fun found' => scan_insights more found').
Proof.
  induction content as [|line rest IH]; intros found; simpl; [done |].
  destruct (scan_insight_line found line); simpl; [apply IH | done].
Qed.

End InsightsFixture.

Section InsightsFixtureClaim.
Context `{Platform}.
Import GeminiAnalyzer.

(** C1, amended: the fixture line holds the synonym INSIGHTS, so the parser
    takes it for the header of the insights section and never buffers it;
    where it is the last line of the content handed to the insights
    extraction, the score is 7 and the legal areas are its three trimmed
    comma-separated pieces. *)
Theorem fixture_line_insights
    (result : analysis) (content : list pystr) (found : gmap string pyval) :
  scan_insights content ∅ = Ok found ->
  (∀ st r, flush st = Ok r ->
     parse_line st fixture
     = Ok {| GeminiAnalyzer.result := r; current_section := Some Insights;
             current_content := [] |}) ∧
  ∃ r, _process_section result Insights (content ++ [fixture]) = Ok r ∧
       insights r !! "complexity_score" = Some (VInt 7) ∧
       insights r !! "legal_areas" = Some (VList fixture_areas) ∧
       insights r !! "sentiment" = found !! "sentiment".
Proof.
  intros Hfound. split.
  - intros st r Hflush. unfold parse_line.
    rewrite fixture_is_header, Hflush. reflexivity.
  - unfold _process_section.
    rewrite scan_insights_app, Hfound, bind_outcome_ok.
    change (scan_insights [fixture] found)
      with (bind_outcome (scan_insight_line found fixture) Ok).
    rewrite scan_fixture, !bind_outcome_ok.
    eexists. split; [reflexivity |]. unfold set_insights, insights.
    split; [by rewrite lookup_insert_ne, lookup_insert_eq |].
    split; [by rewrite lookup_insert_eq |].
    by rewrite !lookup_insert_ne.
Qed.

End InsightsFixtureClaim.

Section InsightsFixtureExamples.
Import GeminiAnalyzer.

Lemma fixture_line_insights_witness :
  scan_insights [lit "Tone: formal"] ∅
    = Ok {["sentiment" := VStr (lit "formal")]} ∧
  ∃ r, _process_section (initial_result []) Insights
         ([lit "Tone: formal"] ++ [fixture]) = Ok r ∧
       insights r !! "complexity_score" = Some (VInt 7) ∧
       insights r !! "legal_areas" = Some (VList fixture_areas) ∧
       insights r !! "sentiment"
       = ({["sentiment" := VStr (lit "formal")]} : gmap string pyval) !! "sentiment".
Proof.
  assert (H1 : scan_insights [lit "Tone: formal"] ∅
               = Ok {["sentiment" := VStr (lit "formal")]})
    by (vm_compute; reflexivity).
  split; [exact H1 |].
  exact (proj2 (fixture_line_insights (initial_result []) _ _ H1)).
Defined.

(** C1 as stated fails: in a reply the fixture line is a header, nothing of
    it is scanned, and the insights are the fallback ones. *)
Lemma fixture_reply_not_scanned :
  ∃ r, _parse_analysis_response fixture lease_text = Ok r ∧
       insights r !! "complexity_score" = Some (VInt 1) ∧
       insights r !! "complexity_score" ≠ Some (VInt 7) ∧
       insights r !! "legal_areas" = None.
Proof.
  eexists. split; [vm_compute; reflexivity |].
  split; [vm_compute; reflexivity |].
  split; [vm_compute; discriminate | vm_compute; reflexivity].
Qed.

End InsightsFixtureExamples.

(** ** Analysis Request Builder *)

Section RequestBuilder.
Import GeminiAnalyzer.





Example prompt_truncates :
  let long := repeat 120%N 8000 ++ lit "TAIL" in
  _create_analysis_prompt long (lit "Summary Only") (lit "Basic")
  = _create_analysis_prompt (repeat 120%N 8000) (lit "Summary Only") (lit "Basic").
Proof. vm_compute. reflexivity. Qed.

Example prompt_risk_focus :
  _create_analysis_prompt [] (lit "Risk Assessment") (lit "Basic")
  = base_prompt [] (lit "Risk Assessment") (lit "Basic") ++ risk_focus ∧
  _create_analysis_prompt [] (lit "Contract Review") (lit "Basic")
  = base_prompt [] (lit "Contract Review") (lit "Basic").
Proof. split; vm_compute; reflexivity. Qed.

End RequestBuilder.

(** ** Upload validation and text extraction *)

Section Upload.
Context `{Platform}.
Import DocumentProcessor.

Lemma size_within_limit size :
  Qle_bool (size_mb_of size) max_size_mb = true ↔ (size <= 50 * 1024 * 1024)%Z.
Proof.
  rewrite Qle_bool_iff. unfold size_mb_of, max_size_mb, Qle, Qdiv, Qmult, Qinv.
  simpl. lia.
Qed.

(** The sizes from which the float division raises. *)
Lemma true_divide_mb_cases size :
  ((Z.abs size < overflow_size)%Z ∧ true_divide_mb size = Ok (size_mb_of size)) ∨
  ((overflow_size <= Z.abs size)%Z ∧
   true_divide_mb size
   = Raise (PyOverflowError
              (lit "integer division result too large for a float"))).
Proof.
  unfold true_divide_mb.
  destruct (Qle_bool float_limit (Qabs (size_mb_of size))) eqn:Hover.
  - right. split; [| done]. apply Qle_bool_iff in Hover. revert Hover.
    unfold float_limit, size_mb_of, overflow_size, Qabs, Qle, Qdiv, Qmult, Qinv.
    simpl. lia.
  - left. split; [| done].
    destruct (Z.lt_ge_cases (Z.abs size) overflow_size) as [Hlt | Hge]; [done |].
    assert (Hle : Qle_bool float_limit (Qabs (size_mb_of size)) = true);
      [| congruence].
    apply Qle_bool_iff. revert Hge.
    unfold float_limit, size_mb_of, overflow_size, Qabs, Qle, Qdiv, Qmult, Qinv.
    simpl. lia.
Qed.

(** What [validate_file] answers: it never touches the upload; it rejects an
    undeclared type, raises where the size has no float, rejects a size above
    50 MB and accepts the rest. *)
Lemma validate_file_decides (w : world) :
  snd (validate_file w) = w ∧
  (uf_type (upload w) ∉ supported_types ->
   fst (validate_file w)
   = Ok (false, lit "Unsupported file type: " ++ uf_type (upload w))) ∧
  (uf_type (upload w) ∈ supported_types ->
   (overflow_size <= Z.abs (uf_size (upload w)))%Z ->
   fst (validate_file w)
   = Raise (PyOverflowError
              (lit "integer division result too large for a float"))) ∧
  (uf_type (upload w) ∈ supported_types ->
   (Z.abs (uf_size (upload w)) < overflow_size)%Z ->
   (50 * 1024 * 1024 < uf_size (upload w))%Z ->
   fst (validate_file w)
   = Ok (false, lit "File size (" ++ format_1f (size_mb_of (uf_size (upload w)))
                ++ lit " MB) exceeds limit of 50 MB")) ∧
  (uf_type (upload w) ∈ supported_types ->
   (Z.abs (uf_size (upload w)) < overflow_size)%Z ->
   (uf_size (upload w) <= 50 * 1024 * 1024)%Z ->
   fst (validate_file w) = Ok (true, lit "File is valid")).
Proof.
  unfold validate_file, bind, get_type, get_size, ret, lift.
  case_bool_decide as Htype; simpl.
  - destruct (true_divide_mb_cases (uf_size (upload w)))
      as [[Hsmall ->] | [Hbig ->]]; simpl.
    + destruct (Qle_bool _ _) eqn:Hsize; simpl.
      * apply size_within_limit in Hsize.
        repeat split; try done; intros; lia.
      * assert (Hlarge : (50 * 1024 * 1024 < uf_size (upload w))%Z).
        { destruct (Z.le_gt_cases (uf_size (upload w)) (50 * 1024 * 1024))
            as [Hle|]; [| lia].
          apply size_within_limit in Hle. congruence. }
        repeat split; try done; intros; lia.
    + repeat split; try done; intros; lia.
  - repeat split; try done.
Qed.

End Upload.

Section TextExtraction.
Context `{Platform}.
Import DocumentProcessor.

Lemma extract_text_caught w e w' :
  extract_text_body w = (Raise e, w') ->
  extract_text w = (Ok [], after_error w' e).
Proof. intros Hbody. unfold extract_text, try_except. by rewrite Hbody. Qed.

Lemma extract_text_passed w text w' :
  extract_text_body w = (Ok text, w') -> extract_text w = (Ok text, w').
Proof. intros Hbody. unfold extract_text, try_except. by rewrite Hbody. Qed.

Lemma extract_text_body_unsupported w :
  uf_type (upload w) ∉ supported_types ->
  extract_text_body w
  = (Raise (PyValueError (lit "Unsupported file type: " ++ uf_type (upload w))), w).
Proof.
  intros Htype. unfold extract_text_body, bind, get_type, str_eqb.
  unfold supported_types in Htype. rewrite !elem_of_cons in Htype.
  assert (Hpdf : uf_type (upload w) ≠ lit "application/pdf") by tauto.
  assert (Hdocx : uf_type (upload w) ∉ [docx_type; lit "application/msword"]).
  { rewrite !elem_of_cons. tauto. }
  assert (Htxt : uf_type (upload w) ≠ lit "text/plain") by tauto.
  by rewrite !bool_decide_eq_false_2.
Qed.

Lemma extract_text_body_pdf_error w e :
  uf_type (upload w) = lit "application/pdf" ->
  PdfReader (drop (uf_pos (upload w)) (uf_bytes (upload w))) = Raise e ->
  extract_text_body w
  = (Raise (PyException (lit "Failed to extract text from PDF: " ++ str_of_exn e)),
     after_read w).
Proof.
  intros Htype Hreader.
  unfold extract_text_body, bind, get_type, str_eqb.
  rewrite bool_decide_eq_true_2 by done.
  unfold _extract_from_pdf, try_except, bind, lift, after_read, read, raise.
  simpl. by rewrite Hreader.
Qed.

(** C3, amended: an undeclared media type makes the body of [extract_text]
    raise [ValueError] and an unreadable PDF makes it raise the wrapping
    [Exception], but [extract_text] catches whatever its body raises, shows
    it and returns the empty string; otherwise it returns the text. *)
Theorem extract_text_errors_are_caught (w : world) :
  (uf_type (upload w) ∉ supported_types ->
   extract_text_body w
   = (Raise (PyValueError (lit "Unsupported file type: " ++ uf_type (upload w))), w)) ∧
  (∀ e, uf_type (upload w) = lit "application/pdf" ->
        PdfReader (drop (uf_pos (upload w)) (uf_bytes (upload w))) = Raise e ->
        extract_text_body w
        = (Raise (PyException
                    (lit "Failed to extract text from PDF: " ++ str_of_exn e)),
           after_read w)) ∧
  (∀ e w', extract_text_body w = (Raise e, w') ->
           extract_text w = (Ok [], after_error w' e)) ∧
  (∀ text w', extract_text_body w = (Ok text, w') ->
              extract_text w = (Ok text, w')).
Proof.
  split; [apply extract_text_body_unsupported |].
  split; [intros e; apply extract_text_body_pdf_error |].
  split; [intros e w'; apply extract_text_caught |].
  intros text w'; apply extract_text_passed.
Qed.

(** C10: [extract_text] always returns; for an undeclared media type and
    whenever its body raises, what it returns is the empty string. *)
Theorem extract_text_never_raises (w : world) :
  ∃ (text : pystr) (w' : world),
    extract_text w = (Ok text, w') ∧
    (uf_type (upload w) ∉ supported_types -> text = []) ∧
    (∀ e w1, extract_text_body w = (Raise e, w1) -> text = []).
Proof.
  destruct (extract_text_body w) as [[text|e] w1] eqn:Hbody.
  - exists text, w1. split; [by apply extract_text_passed |].
    split; [| done]. intros Htype.
    rewrite extract_text_body_unsupported in Hbody by done. done.
  - exists [], (after_error w1 e). split; [by apply extract_text_caught |]. done.
Qed.

End TextExtraction.

Section TextExtractionExamples.
Import DocumentProcessor.

Lemma extract_text_errors_are_caught_witness :
(uf_type (upload png_upload) ∉ supported_types) ∧
  extract_text_body png_upload
  = (Raise (PyValueError (lit "Unsupported file type: image/png")), png_upload).
Proof.
  assert (Htype : uf_type (upload png_upload) ∉ supported_types).
  { apply (bool_decide_unpack _). vm_compute. exact I. }
  split; [exact Htype |].
  exact (proj1 (extract_text_errors_are_caught png_upload) Htype).
Defined.

Lemma extract_text_never_raises_witness :
  extract_text_body broken_pdf_upload
  = (Raise (PyException
      (lit "Failed to extract text from PDF: Cannot read an empty file")),
     broken_pdf_upload) ∧
  fst (extract_text broken_pdf_upload) = Ok [].
Proof.
  assert (Hbody : extract_text_body broken_pdf_upload
    = (Raise (PyException
        (lit "Failed to extract text from PDF: Cannot read an empty file")),
       broken_pdf_upload)) by (vm_compute; reflexivity).
  split; [exact Hbody |].
  destruct (extract_text_never_raises broken_pdf_upload)
    as (text & w' & -> & _ & Hraise).
  simpl. f_equal. exact (Hraise _ _ Hbody).
Defined.

(** C3 as stated fails: for an undeclared media type, and for a PDF the
    reader refuses, the caller gets the empty string, not an error. *)
Lemma extract_text_signals_no_error :
  extract_text png_upload
  = (Ok [], {| upload := upload png_upload;
               st_errors := [lit "Error extracting text: Unsupported file type: image/png"] |}) ∧
  fst (extract_text broken_pdf_upload) = Ok [] ∧
  (∀ e, fst (extract_text png_upload) ≠ Raise e) ∧
  (∀ e, fst (extract_text broken_pdf_upload) ≠ Raise e).
Proof.
  split; [vm_compute; reflexivity |]. split; [vm_compute; reflexivity |].
  split; intros e; vm_compute; discriminate.
Qed.

Example extract_text_plain :
  fst (extract_text text_upload) = Ok (lit "A lease") ∧
  bytes_read text_upload (snd (extract_text text_upload)) = 9.
Proof. split; vm_compute; reflexivity. Qed.

Example validate_file_examples :
  validate_file png_upload
  = (Ok (false, lit "Unsupported file type: image/png"), png_upload) ∧
  validate_file text_upload = (Ok (true, lit "File is valid"), text_upload).
Proof. split; vm_compute; reflexivity. Qed.

End TextExtractionExamples.

(** ** The analysis run of the page *)

Section AnalysisRun.
Context `{Platform}.
Import GeminiAnalyzer App.

Lemma analyze_document_failure generate_content text analysis_type level e :
  analyze_document_body generate_content text analysis_type level = Raise e ->
  analyze_document generate_content text analysis_type level = failed_analysis e.
Proof. intros Hbody. unfold analyze_document. by rewrite Hbody. Qed.

Lemma empty_reply_fails generate_content text analysis_type level :
  generate_content (_create_analysis_prompt text analysis_type level) = Ok (Some []) ->
  analyze_document_body generate_content text analysis_type level
  = Raise (PyException (lit "Empty response from Gemini API")).
Proof. intros Hreply. unfold analyze_document_body. by rewrite Hreply. Qed.

(** Whatever [analyze_document] returns is stored, marked as analyzed. *)
Lemma analyze_button_stores generate_content now db doc_id doc
    analysis_type level entities risks timeline :
  db !! doc_id = Some doc ->
  analyze_button generate_content now db doc_id analysis_type level
                 entities risks timeline !! doc_id
  = Some {| filename := filename doc; file_type := file_type doc;
            upload_date := upload_date doc; content := content doc;
            analysis := Some (Analysed
              {| analysis_result :=
                   analyze_document generate_content (content doc)
                                    analysis_type level;
                 analyzed := true; analysis_date := now;
                 App.analysis_type := analysis_type;
                 complexity_level := level;
                 advanced_options := (entities, risks, timeline) |}) |}.
Proof.
  intros Hdoc. unfold analyze_button, update_analysis.
  rewrite Hdoc, lookup_alter_eq, Hdoc. done.
Qed.

End AnalysisRun.

Section AnalysisRunExample.
Import GeminiAnalyzer App.

(** C2 on the code: re-analysing an analysed document while the service
    answers with an empty text, or cannot be reached, replaces the stored
    record by the error placeholder and marks it as analyzed. *)
Theorem failed_reanalysis_overwrites :
  let rerun service :=
    analyze_button service (lit "2024-02-01 12:00:00") one_document 1
      (lit "Risk Assessment") (lit "Expert") true true false in
  one_document !! 1%Z = Some lease_document ∧
  analysis <$> (rerun silent_service !! 1%Z)
  = Some (Some (Analysed (failed_record "Empty response from Gemini API"))) ∧
  analysis <$> (rerun unreachable_service !! 1%Z)
  = Some (Some (Analysed (failed_record "Connection refused"))) ∧
  is_analyzed <$> (rerun silent_service !! 1%Z) = Some true ∧
  analysis <$> (rerun silent_service !! 1%Z)
  ≠ analysis <$> (one_document !! 1%Z).
Proof.
  intros rerun. subst rerun. cbv beta.
  assert (Hdoc : one_document !! 1%Z = Some lease_document) by done.
  split; [done |].
  rewrite !(analyze_button_stores _ _ _ _ _ _ _ _ _ _ Hdoc).
  rewrite (analyze_document_failure silent_service _ _ _
             (PyException (lit "Empty response from Gemini API")))
    by reflexivity.
  rewrite (analyze_document_failure unreachable_service _ _ _
             (PyLibraryError (lit "Connection refused")))
    by reflexivity.
  rewrite Hdoc. repeat split; done.
Qed.

End AnalysisRunExample.

(** * Further properties of the code *)

(** ** More on strings *)

Section MoreStringFacts.

Lemma dropwhile_head p s :
  dropwhile p s = [] ∨ ∃ c t, dropwhile p s = c :: t ∧ p c = false.
Proof.
  induction s as [|c s IH]; simpl; [by left |].
  destruct (p c) eqn:Hc; [done |]. right. by exists c, s.
Qed.

Lemma dropwhile_app_stop p l c r :
  p c = false -> dropwhile p (l ++ c :: r) = dropwhile p l ++ c :: r.
Proof.
  intros Hc. induction l as [|x l IH]; simpl; [by rewrite Hc |].
  by destruct (p x).
Qed.

Lemma dropwhile_dropwhile p s : dropwhile p (dropwhile p s) = dropwhile p s.
Proof.
  destruct (dropwhile_head p s) as [-> | (c & t & -> & Hc)]; [done |].
  simpl. by rewrite Hc.
Qed.

Lemma rstrip_cons c t : isspace c = false -> rstrip (c :: t) = c :: rstrip t.
Proof.
  intros Hc. unfold rstrip.
  rewrite reverse_cons, dropwhile_app_stop by done.
  by rewrite reverse_app.
Qed.

Lemma rstrip_rstrip s : rstrip (rstrip s) = rstrip s.
Proof. unfold rstrip. by rewrite reverse_involutive, dropwhile_dropwhile. Qed.

Lemma strip_strip s : strip (strip s) = strip s.
Proof.
  unfold strip, lstrip.
  destruct (dropwhile_head isspace s) as [-> | (c & t & -> & Hc)]; [done |].
  rewrite !rstrip_cons by done. simpl. rewrite Hc.
  by rewrite rstrip_cons, rstrip_rstrip.
Qed.

Lemma strip_nil_nil : strip [] = [].
Proof. reflexivity. Qed.

Lemma split_on_from_pieces sep s : forall cur piece,
  piece ∈ split_on_from sep cur s -> sep ∉ cur -> sep ∉ piece.
Proof.
  induction s as [|c s IH]; intros cur piece Hin Hcur; simpl in Hin.
  - apply list_elem_of_singleton in Hin. by subst.
  - destruct (N.eqb_spec c sep) as [-> | Hne].
    + apply elem_of_cons in Hin as [-> | Hin]; [done |].
      apply (IH [] piece Hin). apply not_elem_of_nil.
    + apply (IH _ piece Hin). rewrite elem_of_app, list_elem_of_singleton.
      intros [? | ?]; [done | by subst].
Qed.

Lemma split_on_pieces sep s piece : piece ∈ split_on sep s -> sep ∉ piece.
Proof. intros Hin. apply (split_on_from_pieces _ _ _ _ Hin), not_elem_of_nil. Qed.

Lemma split_on_from_chars sep s : forall cur piece x,
  piece ∈ split_on_from sep cur s -> x ∈ piece -> x ∈ cur ∨ x ∈ s.
Proof.
  induction s as [|c s IH]; intros cur piece x Hin Hx; simpl in Hin.
  - apply list_elem_of_singleton in Hin. subst. by left.
  - destruct (c =? sep)%N.
    + apply elem_of_cons in Hin as [-> | Hin]; [by left |].
      destruct (IH _ _ _ Hin Hx) as [Hc | Hc];
        [by apply elem_of_nil in Hc | right; by constructor].
    + destruct (IH _ _ _ Hin Hx) as [Hc | Hc].
      * apply elem_of_app in Hc as [Hc | Hc]; [by left |].
        apply list_elem_of_singleton in Hc. subst. right. constructor.
      * right. by constructor.
Qed.

Lemma split_on_chars sep s piece x :
  piece ∈ split_on sep s -> x ∈ piece -> x ∈ s.
Proof.
  intros Hin Hx. destruct (split_on_from_chars _ _ _ _ _ Hin Hx) as [Hc | Hc];
    [by apply elem_of_nil in Hc | done].
Qed.

End MoreStringFacts.

(** ** More on the Text Normalizer *)

Section MorePreprocessText.
Import DocumentProcessor.

(** X8: what comes out of the normalizer holds no null or replacement character
    and no whitespace at either end; a blank text gives the empty string;
    and a text without those two characters keeps its words, joined by
    single spaces. *)
Theorem preprocess_text_result (t : pystr) :
  no_artifacts (preprocess_text t) ∧
  strip (preprocess_text t) = preprocess_text t ∧
  (split t = [] -> preprocess_text t = []) ∧
  (no_artifacts t ->
   preprocess_text t = join space (split t) ∧
   split (preprocess_text t) = split t).
Proof.
  split; [apply preprocess_text_no_artifacts |].
  split; [destruct t; [done | apply strip_strip] |].
  split.
  - intros Hblank. destruct t as [|c t]; [done |].
    unfold preprocess_text. by rewrite Hblank.
  - intros Hclean. rewrite (preprocess_text_clean t Hclean).
    split; [done |]. apply split_join, split_words.
Qed.

Lemma preprocess_text_result_witness :
  no_artifacts (lit "  Dear   Sir ") ∧
  preprocess_text (lit "  Dear   Sir ") = join space (split (lit "  Dear   Sir ")) ∧
  split (preprocess_text (lit "  Dear   Sir ")) = split (lit "  Dear   Sir ").
Proof.
  assert (Hc : no_artifacts (lit "  Dear   Sir ")).
  { apply (bool_decide_unpack _). vm_compute. exact I. }
  split; [exact Hc |].
  exact (proj2 (proj2 (proj2 (preprocess_text_result _))) Hc).
Defined.

End MorePreprocessText.

(** ** More on text extraction *)

Section MoreExtraction.
Context `{Platform}.
Import DocumentProcessor.

Lemma pages_text_ok pages texts : forall text,
  Forall2 (fun page t => page_extract_text page = Ok t) pages texts ->
  pages_text pages text
  = Ok (text ++ flat_map (fun t => t ++ [newline]) texts).
Proof.
  intros text Hpages. revert text.
  induction Hpages as [|page t pages texts Hpage _ IH]; intros text.
  - simpl. by rewrite app_nil_r.
  - simpl. rewrite Hpage. simpl. rewrite IH. by rewrite <- !app_assoc.
Qed.

Lemma pages_text_raise good texts bad rest e : forall text,
  Forall2 (fun page t => page_extract_text page = Ok t) good texts ->
  page_extract_text bad = Raise e ->
  pages_text (good ++ bad :: rest) text = Raise e.
Proof.
  intros text Hgood Hbad. revert text.
  induction Hgood as [|page t pages ts Hpage _ IH]; intros text; simpl.
  - by rewrite Hbad.
  - rewrite Hpage. simpl. apply IH.
Qed.

Lemma try_encodings_stripped encodings content text :
  try_encodings encodings content = Some text -> strip text = text.
Proof.
  induction encodings as [|enc rest IH]; simpl; [done |].
  destruct (bytes_decode enc content); [| done].
  intros [= <-]. apply strip_strip.
Qed.

Lemma extract_from_pdf_stripped w text w' :
  _extract_from_pdf w = (Ok text, w') -> strip text = text.
Proof.
  unfold _extract_from_pdf, try_except, bind, lift, read, ret, raise. simpl.
  destruct (PdfReader _) as [pages|e]; simpl; [| done].
  destruct (pages_text pages []) as [t|e]; simpl; [| done].
  intros [= <- _]. apply strip_strip.
Qed.

Lemma extract_from_docx_stripped w text w' :
  _extract_from_docx w = (Ok text, w') -> strip text = text.
Proof.
  unfold _extract_from_docx, try_except, bind, lift, read, ret, raise. simpl.
  destruct (Document _) as [doc|e]; simpl; [| done].
  intros [= <- _]. apply strip_strip.
Qed.

Lemma extract_from_txt_total w :
  ∃ text, _extract_from_txt w = (Ok text, after_read w) ∧ strip text = text ∧
    text = match try_encodings [utf_8; latin_1; cp1252; iso_8859_1] (unread w) with
           | Some t => t
           | None => strip (bytes_decode_replace (unread w))
           end.
Proof.
  unfold _extract_from_txt, try_except, bind, read, ret, after_read, unread.
  cbv beta match zeta.
  destruct (try_encodings _ _) as [t|] eqn:Henc; cbv beta match zeta.
  - exists t. split; [done |]. split; [| done].
    by apply (try_encodings_stripped _ _ _ Henc).
  - eexists. split; [done |]. split; [apply strip_strip | done].
Qed.

(** Which helper the dispatch of [extract_text] reaches. *)
Lemma extract_text_body_pdf w :
  uf_type (upload w) = lit "application/pdf" ->
  extract_text_body w = _extract_from_pdf w.
Proof.
  intros Htype. unfold extract_text_body, bind, get_type, str_eqb.
  by rewrite bool_decide_eq_true_2.
Qed.

Lemma extract_text_body_docx w :
  uf_type (upload w) = docx_type ∨ uf_type (upload w) = lit "application/msword" ->
  extract_text_body w = _extract_from_docx w.
Proof.
  intros Htype. unfold extract_text_body, bind, get_type, str_eqb.
  rewrite bool_decide_eq_false_2.
  2:{ destruct Htype as [-> | ->]; vm_compute; discriminate. }
  rewrite bool_decide_eq_true_2; [done |].
  rewrite !elem_of_cons. tauto.
Qed.

Lemma extract_text_body_txt w :
  uf_type (upload w) = lit "text/plain" ->
  extract_text_body w = _extract_from_txt w.
Proof.
  intros Htype. unfold extract_text_body, bind, get_type, str_eqb.
  rewrite Htype.
  rewrite bool_decide_eq_false_2 by (vm_compute; discriminate).
  rewrite bool_decide_eq_false_2.
  2:{ rewrite !elem_of_cons, elem_of_nil. vm_compute.
      intros [? | [? | ?]]; done. }
  by rewrite bool_decide_eq_true_2.
Qed.

Lemma extract_text_body_cases w :
  uf_type (upload w) ∈ supported_types ->
  extract_text_body w = _extract_from_pdf w ∨
  extract_text_body w = _extract_from_docx w ∨
  extract_text_body w = _extract_from_txt w.
Proof.
  unfold supported_types. rewrite !elem_of_cons, elem_of_nil.
  intros [Ht | [Ht | [Ht | [Ht | []]]]].
  - left. by apply extract_text_body_pdf.
  - right. left. apply extract_text_body_docx. by left.
  - right. left. apply extract_text_body_docx. by right.
  - right. right. by apply extract_text_body_txt.
Qed.

Lemma extract_text_body_stripped w text w' :
  extract_text_body w = (Ok text, w') -> strip text = text.
Proof.
  intros Hbody.
  destruct (decide (uf_type (upload w) ∈ supported_types)) as [Hin | Hout].
  - destruct (extract_text_body_cases w Hin) as [Heq | [Heq | Heq]];
      rewrite Heq in Hbody.
    + by apply (extract_from_pdf_stripped _ _ _ Hbody).
    + by apply (extract_from_docx_stripped _ _ _ Hbody).
    + destruct (extract_from_txt_total w) as (t' & Ht' & Hs & _).
      rewrite Ht' in Hbody. by injection Hbody as <- _.
  - by rewrite extract_text_body_unsupported in Hbody.
Qed.

(** X1: whatever [extract_text] returns has no whitespace at either end. *)
Theorem extract_text_stripped (w : world) (text : pystr) (w' : world) :
  extract_text w = (Ok text, w') -> strip text = text.
Proof.
  unfold extract_text, try_except.
  destruct (extract_text_body w) as [[t|e] w1] eqn:Hbody.
  - intros [= <- _]. by apply (extract_text_body_stripped _ _ _ Hbody).
  - unfold bind, st_error, ret. by intros [= <- _].
Qed.

(** X2: A plain-text upload is always extracted: no error is shown, the rest of
    the upload is consumed, UTF-8 is tried first and Latin-1 next. *)
Theorem extract_text_plain_always (w : world) :
  uf_type (upload w) = lit "text/plain" ->
  ∃ text,
    extract_text w = (Ok text, after_read w) ∧
    st_errors (after_read w) = st_errors w ∧
    uf_pos (upload (after_read w))
      = Nat.max (uf_pos (upload w)) (length (uf_bytes (upload w))) ∧
    (∀ t, bytes_decode utf_8 (unread w) = Some t -> text = strip t) ∧
    (∀ t, bytes_decode utf_8 (unread w) = None ->
          bytes_decode latin_1 (unread w) = Some t -> text = strip t).
Proof.
  intros Htype.
  destruct (extract_from_txt_total w) as (text & Htxt & _ & Hval).
  exists text. split.
  { apply extract_text_passed. by rewrite extract_text_body_txt. }
  split; [done |]. split; [done |].
  simpl in Hval. split.
  - intros t Hu. by rewrite Hu in Hval.
  - intros t Hu Hl. by rewrite Hu, Hl in Hval.
Qed.

(** X3: A PDF whose pages all extract gives the page texts in order, a line
    break after each, trimmed. *)
Theorem extract_text_pdf_pages (w : world) (pages : list pdf_page)
    (texts : list pystr) :
  uf_type (upload w) = lit "application/pdf" ->
  PdfReader (unread w) = Ok pages ->
  Forall2 (fun page t => page_extract_text page = Ok t) pages texts ->
  extract_text w
  = (Ok (strip (flat_map (fun t => t ++ [newline]) texts)), after_read w).
Proof.
  intros Htype Hreader Hpages. apply extract_text_passed.
  rewrite extract_text_body_pdf by done.
  unfold _extract_from_pdf, try_except, bind, lift, read, ret, after_read.
  simpl. unfold unread in Hreader. rewrite Hreader. simpl.
  by rewrite (pages_text_ok _ _ [] Hpages).
Qed.

(** X4: one page that cannot be extracted loses the text of all pages: the
    caller gets the empty string and the error is shown. *)
Theorem extract_text_pdf_bad_page (w : world) (good : list pdf_page)
    (texts : list pystr) (bad : pdf_page) (rest : list pdf_page) (e : exn) :
  uf_type (upload w) = lit "application/pdf" ->
  PdfReader (unread w) = Ok (good ++ bad :: rest) ->
  Forall2 (fun page t => page_extract_text page = Ok t) good texts ->
  page_extract_text bad = Raise e ->
  extract_text w
  = (Ok [],
     after_error (after_read w)
       (PyException (lit "Failed to extract text from PDF: " ++ str_of_exn e))).
Proof.
  intros Htype Hreader Hgood Hbad. apply extract_text_caught.
  rewrite extract_text_body_pdf by done.
  unfold _extract_from_pdf, try_except, bind, lift, read, raise, after_read.
  simpl. unfold unread in Hreader. rewrite Hreader. simpl.
  by rewrite (pages_text_raise _ _ _ _ _ [] Hgood Hbad).
Qed.

Lemma paragraphs_text_flat ps : forall text,
  paragraphs_text ps text = text ++ flat_map (fun p => p ++ [newline]) ps.
Proof.
  unfold paragraphs_text. induction ps as [|p ps IH]; intros text; simpl.
  - by rewrite app_nil_r.
  - rewrite IH. by rewrite <- !app_assoc.
Qed.

Lemma cells_text_flat cells : forall text,
  fold_left (fun text cell => text ++ cell ++ space) cells text
  = text ++ flat_map (fun cell => cell ++ space) cells.
Proof.
  induction cells as [|c cells IH]; intros text; simpl.
  - by rewrite app_nil_r.
  - rewrite IH. by rewrite <- !app_assoc.
Qed.

Lemma rows_text_flat rows : forall text,
  fold_left (fun text row => row_text row text) rows text
  = text ++ flat_map row_line rows.
Proof.
  induction rows as [|r rows IH]; intros text; simpl.
  - by rewrite app_nil_r.
  - rewrite IH. unfold row_text, row_line. rewrite cells_text_flat.
    by rewrite <- !app_assoc.
Qed.

Lemma tables_text_flat ts : forall text,
  tables_text ts text = text ++ flat_map (flat_map row_line) ts.
Proof.
  unfold tables_text. induction ts as [|t ts IH]; intros text; simpl.
  - by rewrite app_nil_r.
  - rewrite IH, rows_text_flat. by rewrite <- !app_assoc.
Qed.

(** X5: A word-processor document gives all its paragraphs, a line break after
    each, and only then the rows of all its tables, trimmed. *)
Theorem extract_text_docx_layout (w : world) (doc : docx_document) :
  uf_type (upload w) = docx_type ∨ uf_type (upload w) = lit "application/msword" ->
  Document (unread w) = Ok doc ->
  extract_text w
  = (Ok (strip (flat_map (fun p => p ++ [newline]) (paragraphs doc)
                ++ flat_map (flat_map row_line) (tables doc))),
     after_read w).
Proof.
  intros Htype Hdoc. apply extract_text_passed.
  rewrite extract_text_body_docx by done.
  unfold _extract_from_docx, try_except, bind, lift, read, ret, after_read.
  simpl. unfold unread in Hdoc. rewrite Hdoc. simpl.
  by rewrite tables_text_flat, paragraphs_text_flat.
Qed.

(** X6: A file that passes validation can fail in extraction only inside a
    format helper, with its "Failed to extract text from" error. *)
Theorem validated_file_extraction_error (w : world) (msg : pystr)
    (e : exn) (w' : world) :
  validate_file w = (Ok (true, msg), w) ->
  extract_text_body w = (Raise e, w') ->
  ∃ cause kind,
    e = PyException (lit "Failed to extract text from " ++ kind ++ lit ": " ++ cause) ∧
    kind ∈ [lit "PDF"; lit "DOCX"; lit "TXT"].
Proof.
  intros Hvalid Hbody.
  assert (Htype : uf_type (upload w) ∈ supported_types).
  { revert Hvalid. unfold validate_file, bind, get_type, get_size, ret.
    case_bool_decide; [done |]. simpl. intros [=]. }
  destruct (extract_text_body_cases w Htype) as [Heq | [Heq | Heq]];
    rewrite Heq in Hbody.
  - revert Hbody.
    unfold _extract_from_pdf, try_except, bind, lift, read, ret, raise. simpl.
    destruct (PdfReader _) as [pages|e1]; simpl.
    + destruct (pages_text pages []) as [t|e2]; simpl; [done |].
      intros [= <- _]. exists (str_of_exn e2), (lit "PDF").
      split; [done |]. rewrite !elem_of_cons. tauto.
    + intros [= <- _]. exists (str_of_exn e1), (lit "PDF").
      split; [done |]. rewrite !elem_of_cons. tauto.
  - revert Hbody.
    unfold _extract_from_docx, try_except, bind, lift, read, ret, raise. simpl.
    destruct (Document _) as [doc|e1]; simpl; [done |].
    intros [= <- _]. exists (str_of_exn e1), (lit "DOCX").
    split; [done |]. rewrite !elem_of_cons. tauto.
  - destruct (extract_from_txt_total w) as (t & Ht & _). by rewrite Ht in Hbody.
Qed.

End MoreExtraction.

Section MoreExtractionExamples.
Import DocumentProcessor.

Lemma extract_text_stripped_witness :
  extract_text text_upload = (Ok (lit "A lease"), after_read text_upload) ∧
  strip (lit "A lease") = lit "A lease".
Proof.
  assert (Hrun : extract_text text_upload
                 = (Ok (lit "A lease"), after_read text_upload))
    by (vm_compute; reflexivity).
  split; [exact Hrun |]. exact (extract_text_stripped _ _ _ Hrun).
Defined.

Lemma extract_text_plain_always_witness :
  uf_type (upload text_upload) = lit "text/plain" ∧
  ∃ text, extract_text text_upload = (Ok text, after_read text_upload) ∧
          text = strip (lit " A lease ").
Proof.
  assert (Htype : uf_type (upload text_upload) = lit "text/plain")
    by reflexivity.
  split; [exact Htype |].
  destruct (extract_text_plain_always text_upload Htype)
    as (text & Hrun & _ & _ & Hutf & _).
  exists text. split; [exact Hrun |]. apply Hutf. vm_compute. reflexivity.
Defined.

Lemma extract_text_pdf_pages_witness :
  extract_text (fresh_upload "application/pdf" (lit "Hi"))
  = (Ok (strip (lit "H" ++ [newline] ++ lit "i" ++ [newline])),
     after_read (fresh_upload "application/pdf" (lit "Hi"))).
Proof.
  apply (extract_text_pdf_pages (H := ascii_platform) _
           (lit "Hi" : list (@pdf_page ascii_platform)) [lit "H"; lit "i"]).
  - reflexivity.
  - vm_compute. reflexivity.
  - repeat constructor.
Defined.

Lemma extract_text_pdf_bad_page_witness :
  extract_text (H := sample_platform)
    (fresh_upload "application/pdf" [72; 0; 105]%N)
  = (Ok [],
     after_error (after_read (fresh_upload "application/pdf" [72; 0; 105]%N))
       (PyException (lit "Failed to extract text from PDF: Cannot decode page"))).
Proof.
  apply (extract_text_pdf_bad_page (H := sample_platform) _
           ([72%N] : list (@pdf_page sample_platform)) [[72%N]]
           (0%N : @pdf_page sample_platform)
           ([105%N] : list (@pdf_page sample_platform))
           (PyLibraryError (lit "Cannot decode page"))).
  - reflexivity.
  - vm_compute. reflexivity.
  - repeat constructor.
  - vm_compute. reflexivity.
Defined.

Lemma extract_text_docx_layout_witness :
  extract_text (H := sample_platform) (fresh_upload "application/msword" (lit "Hi"))
  = (Ok (lit "Hi" ++ [newline] ++ lit "Hi Hi"),
     after_read (fresh_upload "application/msword" (lit "Hi"))).
Proof.
  rewrite (extract_text_docx_layout (H := sample_platform) _
             {| paragraphs := [lit "Hi"]; tables := [[[lit "Hi"; lit "Hi"]]] |}).
  - vm_compute. reflexivity.
  - right. reflexivity.
  - vm_compute. reflexivity.
Defined.

Lemma validated_file_extraction_error_witness :
  validate_file broken_pdf_upload = (Ok (true, lit "File is valid"), broken_pdf_upload) ∧
  ∃ cause kind,
    PyException (lit "Failed to extract text from PDF: Cannot read an empty file")
    = PyException (lit "Failed to extract text from " ++ kind ++ lit ": " ++ cause) ∧
    kind ∈ [lit "PDF"; lit "DOCX"; lit "TXT"].
Proof.
  assert (Hvalid : validate_file broken_pdf_upload
                   = (Ok (true, lit "File is valid"), broken_pdf_upload))
    by (vm_compute; reflexivity).
  assert (Hbody : extract_text_body broken_pdf_upload
    = (Raise (PyException
        (lit "Failed to extract text from PDF: Cannot read an empty file")),
       broken_pdf_upload)) by (vm_compute; reflexivity).
  split; [exact Hvalid |].
  exact (validated_file_extraction_error _ _ _ _ Hvalid Hbody).
Defined.

End MoreExtractionExamples.

(** ** More on the AI Response Structurer *)

Section StructurerTotal.
Context `{Platform}.
Import GeminiAnalyzer.

Lemma ascii_text_strip s : ascii_text s -> ascii_text (strip s).
Proof.
  unfold ascii_text. rewrite !Forall_forall. intros Hs c Hc.
  apply Hs. by apply strip_subset.
Qed.

Lemma ascii_text_lines sep s :
  ascii_text s -> Forall ascii_text (split_on sep s).
Proof.
  intros Hs. apply Forall_forall. intros piece Hpiece.
  unfold ascii_text in *. rewrite Forall_forall in *. intros c Hc.
  apply Hs. by apply (split_on_chars sep s piece).
Qed.

Lemma py_int_ascii_digit c :
  is_ascii c = true -> py_isdigit c = true ->
  py_int c = Ok (Z.of_N c - 48)%Z ∧ (0 <= Z.of_N c - 48 <= 9)%Z.
Proof.
  unfold py_isdigit, py_int. intros -> Hd. rewrite Hd. split; [done |].
  apply andb_true_iff in Hd as [H1 H2].
  apply N.leb_le in H1, H2. lia.
Qed.

Lemma set_complexity_score_ascii line found :
  ascii_text line -> ∃ found', set_complexity_score line found = Ok found'.
Proof.
  induction 1 as [|c line Hc _ IH]; simpl; [by eexists |].
  destruct (py_isdigit c) eqn:Hd; [| done].
  destruct (py_int_ascii_digit c Hc Hd) as [-> _]. by eexists.
Qed.

Lemma scan_insight_line_ascii line found :
  ascii_text line -> ∃ found', scan_insight_line found line = Ok found'.
Proof.
  intros Hline. unfold scan_insight_line.
  destruct (contains (lit "complexity") (lower line) && existsb py_isdigit line).
  - destruct (set_complexity_score_ascii line found Hline) as [f ->].
    by eexists.
  - by eexists.
Qed.

Lemma scan_insights_ascii content : forall found,
  Forall ascii_text content -> ∃ found', scan_insights content found = Ok found'.
Proof.
  induction content as [|line rest IH]; intros found Hall; simpl; [by eexists |].
  apply Forall_cons in Hall as [Hline Hrest].
  destruct (scan_insight_line_ascii line found Hline) as [f ->]. simpl.
  by apply IH.
Qed.

Lemma process_section_ascii result section_ content :
  Forall (fun line => line ≠ []) content -> Forall ascii_text content ->
  ∃ r, _process_section result section_ content = Ok r.
Proof.
  intros Hne Hascii. destruct section_; unfold _process_section.
  - by eexists.
  - destruct (collect_items_ok content [] Hne) as [items ->]. by eexists.
  - destruct (scan_insights_ascii content ∅ Hascii) as [found ->]. by eexists.
  - by eexists.
  - destruct (collect_items_ok content [] Hne) as [items ->]. by eexists.
Qed.

Lemma flush_ascii st : ascii_buffer st -> ∃ r, flush st = Ok r.
Proof.
  intros [Hne Hascii]. unfold flush.
  destruct (current_section st) as [sec|]; [| by eexists].
  destruct (current_content st) as [|l ls] eqn:Hc; [by eexists |].
  by apply process_section_ascii.
Qed.

Lemma parse_line_ascii st line :
  ascii_buffer st -> ascii_text line ->
  ∃ st', parse_line st line = Ok st' ∧ ascii_buffer st'.
Proof.
  intros Hst Hline. unfold parse_line.
  destruct (header_of (strip line)).
  - destruct (flush_ascii st Hst) as [r ->]. simpl. eexists. split; [done |].
    split; constructor.
  - destruct (nonempty (strip line) && negb (startswith (strip line) (lit "#")))
      eqn:Hkeep; [| by eexists].
    eexists. split; [done |]. destruct Hst as [Hne Hascii].
    apply andb_true_iff in Hkeep as [Hn _].
    split; simpl; apply Forall_app; (split; [done |]); constructor;
      try done; [by destruct (strip line) | by apply ascii_text_strip].
Qed.

Lemma parse_lines_ascii lines : forall st,
  ascii_buffer st -> Forall ascii_text lines ->
  ∃ st', parse_lines st lines = Ok st' ∧ ascii_buffer st'.
Proof.
  induction lines as [|line rest IH]; intros st Hst Hall; simpl;
    [by eexists |].
  apply Forall_cons in Hall as [Hline Hrest].
  destruct (parse_line_ascii st line Hst Hline) as (st1 & -> & Hst1).
  simpl. by apply IH.
Qed.

(** X9: A reply made of ASCII characters is always structured: no line of it
    can make the parser raise. *)
Theorem parse_ascii_reply_total (response_text original_text : pystr) :
  ascii_text response_text ->
  ∃ r, _parse_analysis_response response_text original_text = Ok r.
Proof.
  intros Hascii.
  unfold _parse_analysis_response, parse_response_lines, structure_lines.
  set (st0 := {| result := initial_result response_text;
                 current_section := None; current_content := [] |}).
  assert (Hst0 : ascii_buffer st0) by (split; constructor).
  destruct (parse_lines_ascii _ st0 Hst0 (ascii_text_lines newline _ Hascii))
    as (st & -> & Hst).
  simpl. destruct (flush_ascii st Hst) as [r ->]. simpl. by eexists.
Qed.

Lemma set_complexity_score_raise before c after e found :
  Forall (fun x => py_isdigit x = false) before ->
  py_isdigit c = true -> py_int c = Raise e ->
  set_complexity_score (before ++ c :: after) found = Raise e.
Proof.
  intros Hbefore Hc He.
  induction Hbefore as [|x before Hx _ IH]; simpl.
  - by rewrite Hc, He.
  - by rewrite Hx.
Qed.

Lemma existsb_digit before c after :
  py_isdigit c = true -> existsb py_isdigit (before ++ c :: after) = true.
Proof.
  intros Hc. rewrite existsb_app. simpl. rewrite Hc. by rewrite orb_true_r.
Qed.

(** X10: the first digit of a complexity line is given to [int]; where [int]
    refuses it, the insights section fails as a whole. *)
Theorem insights_digit_refused (result : analysis)
    (earlier later : list pystr) (found : gmap string pyval)
    (before after : pystr) (c : N) (e : exn) :
  scan_insights earlier ∅ = Ok found ->
  contains (lit "complexity") (lower (before ++ c :: after)) = true ->
  Forall (fun x => py_isdigit x = false) before ->
  py_isdigit c = true ->
  py_int c = Raise e ->
  _process_section result Insights (earlier ++ (before ++ c :: after) :: later)
  = Raise e.
Proof.
  intros Hearlier Hcomplexity Hbefore Hc He.
  unfold _process_section. rewrite scan_insights_app, Hearlier, bind_outcome_ok.
  simpl scan_insights. unfold scan_insight_line.
  rewrite Hcomplexity, (existsb_digit _ _ _ Hc).
  rewrite (set_complexity_score_raise _ _ _ _ _ Hbefore Hc He). done.
Qed.

End StructurerTotal.

Section StructurerShape.
Context `{Platform}.
Import GeminiAnalyzer.

(** *** Text before the first header *)

Lemma parse_lines_headerless lines : forall result content,
  Forall (fun line => header_of (strip line) = None) lines ->
  ∃ content',
    parse_lines {| result := result; current_section := None;
                   current_content := content |} lines
    = Ok {| result := result; current_section := None;
            current_content := content' |}.
Proof.
  induction lines as [|line rest IH]; intros result content Hall; simpl.
  - by eexists.
  - apply Forall_cons in Hall as [Hline Hrest].
    unfold parse_line. rewrite Hline. simpl.
    destruct (nonempty (strip line) && negb (startswith (strip line) (lit "#")));
      simpl; by apply IH.
Qed.

(** X11: lines that come before the first header line are dropped. *)
Theorem preamble_ignored (preamble rest : list pystr)
    (response_text original_text : pystr) :
  Forall (fun line => header_of (strip line) = None) preamble ->
  (rest = [] ∨ ∃ line rest', rest = line :: rest' ∧ header_of (strip line) ≠ None) ->
  parse_response_lines (preamble ++ rest) response_text original_text
  = parse_response_lines rest response_text original_text.
Proof.
  intros Hpre Hrest.
  unfold parse_response_lines, structure_lines. rewrite parse_lines_app.
  destruct (parse_lines_headerless preamble (initial_result response_text) [] Hpre)
    as [content ->].
  rewrite bind_outcome_ok.
  destruct Hrest as [-> | (line & rest' & -> & Hline)]; [done |].
  simpl. unfold parse_line.
  destruct (header_of (strip line)) as [sec|]; [| done]. done.
Qed.

(** X12: A reply without any header line gives the empty record with the
    fallback insights. *)
Theorem headerless_reply_is_empty (response_text original_text : pystr) :
  Forall (fun line => header_of (strip line) = None)
         (split_on newline response_text) ->
  _parse_analysis_response response_text original_text
  = Ok (set_insights (initial_result response_text)
                     (_generate_basic_insights original_text)).
Proof.
  intros Hall.
  unfold _parse_analysis_response, parse_response_lines, structure_lines.
  destruct (parse_lines_headerless _ (initial_result response_text) [] Hall)
    as [content ->].
  done.
Qed.

(** *** The fields the parser does not extract *)

Lemma process_section_bookkeeping result section_ content r :
  _process_section result section_ content = Ok r ->
  snd (bookkeeping result) = true ->
  bookkeeping r = bookkeeping result.
Proof.
  unfold _process_section, bookkeeping.
  destruct section_; simpl.
  - by intros [= <-].
  - destruct (collect_items content []); simpl; [| done]. by intros [= <-].
  - destruct (scan_insights content ∅); simpl; [| done]. by intros [= <-].
  - intros [= <-] Hs. simpl in *. by rewrite Hs.
  - destruct (collect_items content []); simpl; [| done]. by intros [= <-].
Qed.

Lemma flush_bookkeeping st r :
  flush st = Ok r -> snd (bookkeeping (result st)) = true ->
  bookkeeping r = bookkeeping (result st).
Proof.
  unfold flush. destruct (current_section st) as [sec|]; [| by intros [= <-]].
  destruct (current_content st); [by intros [= <-] |].
  apply process_section_bookkeeping.
Qed.

Lemma parse_lines_bookkeeping lines : forall st st',
  parse_lines st lines = Ok st' ->
  snd (bookkeeping (result st)) = true ->
  bookkeeping (result st') = bookkeeping (result st).
Proof.
  induction lines as [|line rest IH]; intros st st'; simpl.
  - by intros [= <-].
  - destruct (parse_line st line) as [st1|e] eqn:Hline; simpl; [| done].
    intros Hrest Hs.
    assert (H1 : bookkeeping (result st1) = bookkeeping (result st)).
    { revert Hline. unfold parse_line.
      destruct (header_of (strip line)).
      - destruct (flush st) as [r|e] eqn:Hflush; simpl; [| done].
        intros [= <-]. simpl. by apply flush_bookkeeping.
      - destruct (_ && _); by intros [= <-]. }
    rewrite (IH _ _ Hrest); [done |]. by rewrite H1.
Qed.

Lemma parse_bookkeeping response_text original_text r :
  _parse_analysis_response response_text original_text = Ok r ->
  bookkeeping r = (None, Some response_text, true).
Proof.
  unfold _parse_analysis_response, parse_response_lines, structure_lines.
  destruct (parse_lines _ _) as [st|e] eqn:Hlines; simpl; [| done].
  destruct (flush st) as [r1|e] eqn:Hflush; simpl; [| done].
  intros [= <-].
  apply parse_lines_bookkeeping in Hlines; [| done].
  apply flush_bookkeeping in Hflush; [| by rewrite Hlines].
  assert (Hb : bookkeeping r1 = (None, Some response_text, true))
    by (by rewrite Hflush, Hlines).
  unfold add_basic_insights. by case_bool_decide.
Qed.

(** X13: A structured record keeps the reply word for word, has no [error] key
    and has a [simplified_explanation]. *)
Theorem parse_keeps_reply (response_text original_text : pystr) (r : analysis) :
  _parse_analysis_response response_text original_text = Ok r ->
  raw_analysis r = Some response_text ∧
  error r = None ∧
  is_Some (simplified_explanation r).
Proof.
  intros Hparse. apply parse_bookkeeping in Hparse.
  unfold bookkeeping in Hparse. injection Hparse as He Hr Hs.
  split; [done |]. split; [done |]. by apply bool_decide_eq_true in Hs.
Qed.

(** X14: the record [analyze_document] returns has an [error] key exactly when
    the run failed, and then it is the placeholder. *)
Theorem analyze_document_error_key (generate_content : client)
    (text analysis_type complexity_level : pystr) :
  let r := analyze_document generate_content text analysis_type complexity_level in
  (error r = None ↔
   analyze_document_body generate_content text analysis_type complexity_level
   = Ok r) ∧
  (∀ message, error r = Some message ->
     r = failed_analysis (PyException message) ∧
     key_points r = [] ∧ insights r = ∅ ∧ raw_analysis r = None).
Proof.
  intros r. subst r. unfold analyze_document.
  destruct (analyze_document_body _ _ _ _) as [r|e] eqn:Hbody.
  - assert (Herr : error r = None).
    { revert Hbody. unfold analyze_document_body.
      destruct (generate_content _) as [[[|c reply]|]|e]; simpl; try done.
      intros Hparse. apply parse_bookkeeping in Hparse.
      unfold bookkeeping in Hparse. congruence. }
    split; [done |]. intros message. by rewrite Herr.
  - split; [split; done |].
    intros message. simpl. intros [= <-]. by destruct e.
Qed.

End StructurerShape.

Section SectionShape.
Context `{Platform}.
Import GeminiAnalyzer.

(** *** Key points and recommendations *)

Lemma collect_items_length content : forall points items,
  collect_items content points = Ok items ->
  length items <= length points + length content.
Proof.
  induction content as [|line rest IH]; intros points items; simpl.
  - intros [= <-]. lia.
  - destruct (if starts_with_bullet line then Ok true else first_isdigit line)
      as [marked|e]; simpl; [| done].
    destruct marked; [| destruct (nonempty (strip line))]; intros Hrest;
      apply IH in Hrest; rewrite ?length_app in Hrest; simpl in Hrest; lia.
Qed.

Lemma stripped_nonempty_shape points :
  Forall (fun p => p ≠ [] ∧ strip p = p) (stripped_nonempty points) ∧
  length (stripped_nonempty points) <= length points.
Proof.
  unfold stripped_nonempty. split.
  - apply Forall_forall. intros p Hp.
    apply list_elem_of_fmap in Hp as (q & -> & Hq).
    apply list_elem_of_filter in Hq as [Hq _].
    split; [by destruct (strip q) | apply strip_strip].
  - rewrite length_map. apply length_filter.
Qed.

(** X15: the key points, and likewise the recommendations, are non-empty trimmed
    strings, at most one per line of the section; nothing else of the record
    changes. *)
Theorem listed_items_shape (result : analysis) (content : list pystr)
    (r : analysis) :
  (_process_section result KeyPoints content = Ok r ->
   Forall (fun p => p ≠ [] ∧ strip p = p) (key_points r) ∧
   length (key_points r) <= length content ∧
   r = set_key_points result (key_points r)) ∧
  (_process_section result Recommendations content = Ok r ->
   Forall (fun p => p ≠ [] ∧ strip p = p) (recommendations r) ∧
   length (recommendations r) <= length content ∧
   r = set_recommendations result (recommendations r)).
Proof.
  unfold _process_section.
  split; destruct (collect_items content []) as [items|e] eqn:Hitems;
    simpl; try done; intros [= <-]; simpl;
    destruct (stripped_nonempty_shape items) as [Hshape Hlen];
    apply collect_items_length in Hitems; simpl in Hitems;
    (split; [done |]); (split; [lia | done]).
Qed.

(** *** Insights *)

Lemma insights_ok_insert found key v :
  insights_ok found -> insight_entry_ok key v ->
  insights_ok (<[key := v]> found).
Proof.
  intros Hfound Hv k v'. rewrite lookup_insert.
  case_decide as Hk; [| apply Hfound]. subst. by intros [= <-].
Qed.

Lemma set_complexity_score_ok line found found' :
  set_complexity_score line found = Ok found' ->
  insights_ok found -> insights_ok found'.
Proof.
  induction line as [|c line IH]; simpl; [by intros [= <-] |].
  destruct (py_isdigit c); [| done].
  destruct (py_int c) as [v|e]; simpl; [| done].
  intros [= <-] Hfound. by apply insights_ok_insert.
Qed.

Lemma areas_ok line :
  Forall (fun a => a ≠ [] ∧ strip a = a ∧ 44%N ∉ a)
         (stripped_nonempty (split_on 44 line)).
Proof.
  unfold stripped_nonempty. apply Forall_forall. intros a Ha.
  apply list_elem_of_fmap in Ha as (q & -> & Hq).
  apply list_elem_of_filter in Hq as [Hq Hin].
  split; [by destruct (strip q) |]. split; [apply strip_strip |].
  intros Hc. apply strip_subset in Hc. by apply (split_on_pieces 44 line q).
Qed.

Lemma last_split_on sep s : List.last (split_on sep s) [] ∈ split_on sep s.
Proof.
  assert (Hne : split_on sep s ≠ []).
  { unfold split_on. generalize (@nil N).
    induction s as [|c s IH]; intros cur; simpl; [done |].
    destruct (c =? sep)%N; [done | apply IH]. }
  destruct (exists_last Hne) as (l & x & ->).
  rewrite last_last. apply elem_of_app. right. constructor.
Qed.

Lemma sentiment_ok line :
  let s := if contains (lit ":") line
           then strip (List.last (split_on 58 line) [])
           else lit "Neutral" in
  strip s = s ∧ 58%N ∉ s.
Proof.
  simpl. destruct (contains (lit ":") line).
  - split; [apply strip_strip |]. intros Hc. apply strip_subset in Hc.
    by apply (split_on_pieces 58 line _ (last_split_on 58 line)).
  - split; [done |]. vm_compute. intros Hc.
    repeat (apply elem_of_cons in Hc as [Hc | Hc]; [done |]).
    by apply elem_of_nil in Hc.
Qed.

Lemma scan_insight_line_ok line found found' :
  scan_insight_line found line = Ok found' ->
  insights_ok found -> insights_ok found'.
Proof.
  unfold scan_insight_line.
  destruct (if contains (lit "complexity") (lower line) && existsb py_isdigit line
            then set_complexity_score line found else Ok found)
    as [f1|e] eqn:Hscore; simpl; [| done].
  intros [= <-] Hfound.
  assert (H1 : insights_ok f1).
  { destruct (_ && _); [| by injection Hscore as <-].
    by apply (set_complexity_score_ok _ _ _ Hscore). }
  assert (H2 : insights_ok
                 (if contains (lit "legal area") (lower line)
                     || contains (lit "area") (lower line)
                  then <["legal_areas" :=
                          VList (stripped_nonempty (split_on 44 line))]> f1
                  else f1)).
  { destruct (_ || _); [| done].
    apply insights_ok_insert; [done |]. split; [done | apply areas_ok]. }
  destruct (contains (lit "sentiment") (lower line)
            || contains (lit "tone") (lower line)); [| done].
  apply insights_ok_insert; [done |]. split; [done | apply sentiment_ok].
Qed.

Lemma scan_insights_ok content : forall found found',
  scan_insights content found = Ok found' ->
  insights_ok found -> insights_ok found'.
Proof.
  induction content as [|line rest IH]; intros found found'; simpl.
  - by intros [= <-].
  - destruct (scan_insight_line found line) as [f|e] eqn:Hline; simpl; [| done].
    intros Hrest Hfound. apply (IH _ _ Hrest).
    by apply (scan_insight_line_ok _ _ _ Hline).
Qed.

(** X16: the insights read from a reply hold at most the three keys: a number
    under [complexity_score], under [legal_areas] non-empty trimmed pieces
    without a comma, under [sentiment] a trimmed text without a colon. *)
Theorem extracted_insights_shape (result : analysis) (content : list pystr)
    (r : analysis) :
  _process_section result Insights content = Ok r ->
  (∀ key v, insights r !! key = Some v ->
     key ∈ ["complexity_score"; "legal_areas"; "sentiment"]%string) ∧
  (∀ v, insights r !! "complexity_score" = Some v -> ∃ z, v = VInt z) ∧
  (∀ v, insights r !! "legal_areas" = Some v ->
     ∃ areas, v = VList areas ∧
       Forall (fun a => a ≠ [] ∧ strip a = a ∧ 44%N ∉ a) areas) ∧
  (∀ v, insights r !! "sentiment" = Some v ->
     ∃ s, v = VStr s ∧ strip s = s ∧ 58%N ∉ s).
Proof.
  unfold _process_section.
  destruct (scan_insights content ∅) as [found|e] eqn:Hscan; simpl; [| done].
  intros [= <-]. simpl.
  assert (Hok : insights_ok found).
  { apply (scan_insights_ok _ _ _ Hscan). intros k v. by rewrite lookup_empty. }
  split; [| split; [| split]].
  - intros key v Hv. specialize (Hok _ _ Hv). rewrite !elem_of_cons.
    destruct v; simpl in Hok; tauto.
  - intros v Hv. specialize (Hok _ _ Hv).
    destruct v; simpl in Hok; [by eexists | |]; by destruct Hok.
  - intros v Hv. specialize (Hok _ _ Hv).
    destruct v; simpl in Hok; [done | by destruct Hok |].
    destruct Hok as [_ Hareas]. by eexists.
  - intros v Hv. specialize (Hok _ _ Hv).
    destruct v; simpl in Hok; [done | | by destruct Hok].
    destruct Hok as [_ Hs]. by eexists.
Qed.

End SectionShape.

Section ComplexityScore.
Context `{Platform}.
Import GeminiAnalyzer.

Lemma set_complexity_score_first before c after found :
  Forall (fun x => py_isdigit x = false) before ->
  is_ascii c = true -> py_isdigit c = true ->
  set_complexity_score (before ++ c :: after) found
  = Ok (<["complexity_score" := VInt (Z.of_N c - 48)]> found).
Proof.
  intros Hbefore Hc Hd.
  induction Hbefore as [|x before Hx _ IH]; simpl.
  - rewrite Hd. by destruct (py_int_ascii_digit c Hc Hd) as [-> _].
  - by rewrite Hx.
Qed.

Lemma scan_insight_line_score line found found' :
  scan_insight_line found line = Ok found' -> no_score_line line ->
  found' !! "complexity_score" = found !! "complexity_score".
Proof.
  unfold scan_insight_line, no_score_line. intros Hscan Hno.
  rewrite Hno in Hscan. simpl in Hscan. injection Hscan as <-.
  destruct (_ || _), (_ || _); by rewrite ?lookup_insert_ne.
Qed.

Lemma scan_insights_no_score later : forall found,
  Forall no_score_line later ->
  ∃ found', scan_insights later found = Ok found' ∧
            found' !! "complexity_score" = found !! "complexity_score".
Proof.
  induction later as [|line rest IH]; intros found Hall; simpl; [by eexists |].
  apply Forall_cons in Hall as [Hline Hrest].
  destruct (scan_insight_line found line) as [f|e] eqn:Hscan.
  - simpl. destruct (IH f Hrest) as (f' & -> & Hf'). eexists. split; [done |].
    rewrite Hf'. by apply (scan_insight_line_score line).
  - exfalso. revert Hscan. unfold scan_insight_line.
    unfold no_score_line in Hline. by rewrite Hline.
Qed.

(** X17: the complexity score is the first digit of the last line that mentions
    complexity and holds a digit: one digit, whatever number the line
    spells. *)
Theorem complexity_score_is_first_digit_of_last_match (result : analysis)
    (earlier later : list pystr) (found : gmap string pyval)
    (before after : pystr) (c : N) :
  scan_insights earlier ∅ = Ok found ->
  contains (lit "complexity") (lower (before ++ c :: after)) = true ->
  Forall (fun x => py_isdigit x = false) before ->
  is_ascii c = true -> py_isdigit c = true ->
  Forall no_score_line later ->
  ∃ r, _process_section result Insights
         (earlier ++ (before ++ c :: after) :: later) = Ok r ∧
       insights r !! "complexity_score" = Some (VInt (Z.of_N c - 48)) ∧
       (0 <= Z.of_N c - 48 <= 9)%Z.
Proof.
  intros Hearlier Hcomplexity Hbefore Hc Hd Hlater.
  unfold _process_section.
  rewrite scan_insights_app, Hearlier, bind_outcome_ok.
  simpl scan_insights.
  assert (Hline : ∃ f, scan_insight_line found (before ++ c :: after) = Ok f ∧
                       f !! "complexity_score" = Some (VInt (Z.of_N c - 48))).
  { unfold scan_insight_line.
    rewrite Hcomplexity, (existsb_digit _ _ _ Hd).
    rewrite (set_complexity_score_first _ _ _ _ Hbefore Hc Hd). simpl.
    eexists. split; [done |].
    destruct (_ || _), (_ || _);
      by rewrite ?lookup_insert_ne, lookup_insert_eq by done. }
  destruct Hline as (f & -> & Hf). rewrite bind_outcome_ok.
  destruct (scan_insights_no_score later f Hlater) as (f' & -> & Hf').
  rewrite bind_outcome_ok. eexists. split; [reflexivity |].
  change (insights (set_insights result f')) with f'.
  split; [by rewrite Hf', Hf |].
  by destruct (py_int_ascii_digit c Hc Hd).
Qed.

End ComplexityScore.

(** ** More on the prompts *)

Section Prompts.
Import GeminiAnalyzer.

(** X18: the prompt is 1135 characters of template, the two selectors, at most
    8000 characters of text and at most 257 characters of focus block. *)
Theorem create_analysis_prompt_length (text analysis_type complexity_level : pystr) :
  length (_create_analysis_prompt text analysis_type complexity_level)
  = 1135 + length analysis_type + length complexity_level
    + Nat.min 8000 (length text) + length (focus_block analysis_type) ∧
  length (focus_block analysis_type) <= 257 ∧
  (Z.of_nat (length (_create_analysis_prompt text analysis_type complexity_level))
   <= 9392 + Z.of_nat (length analysis_type)
      + Z.of_nat (length complexity_level))%Z.
Proof.
  assert (Hlen : length (_create_analysis_prompt text analysis_type complexity_level)
    = 1135 + length analysis_type + length complexity_level
      + Nat.min 8000 (length text) + length (focus_block analysis_type)).
  { unfold _create_analysis_prompt, base_prompt, slice_to.
    rewrite !length_app, length_take.
    change (length prompt_opening) with 135.
    change (length (lit "        Detail Level: ")) with 22.
    change (length prompt_before_text) with 40.
    change (length prompt_requests) with 936.
    simpl (length [newline]).
    generalize (Nat.min 8000 (length text)). intros m. lia. }
  assert (Hfocus : length (focus_block analysis_type) <= 257).
  { unfold focus_block. repeat case_match; vm_compute; lia. }
  split; [done |]. split; [done |].
  rewrite Hlen. rewrite !Nat2Z.inj_add, Nat2Z.inj_min.
  replace (Z.of_nat 8000) with 8000%Z by (vm_compute; reflexivity). lia.
Qed.

(** X19: the summary is never empty and is made from the first 4000 characters
    of the text: the reply when there is one, a fixed notice otherwise. *)
Theorem document_summary_result (generate_content : client) (text : pystr) :
  get_document_summary generate_content text ≠ [] ∧
  get_document_summary generate_content text
  = get_document_summary generate_content (slice_to 4000 text) ∧
  (∀ reply, generate_content (summary_prompt text) = Ok (Some reply) ->
     reply ≠ [] -> get_document_summary generate_content text = reply) ∧
  (generate_content (summary_prompt text) = Ok None ∨
   generate_content (summary_prompt text) = Ok (Some []) ->
   get_document_summary generate_content text = lit "Summary not available").
Proof.
  assert (Hprompt : summary_prompt (slice_to 4000 text) = summary_prompt text).
  { unfold summary_prompt, slice_to. by rewrite take_take, Nat.min_id. }
  unfold get_document_summary. rewrite Hprompt.
  destruct (generate_content (summary_prompt text)) as [[[|c reply]|]|e].
  - repeat split; try done. by intros reply [= <-].
  - repeat split; try done. by intros reply' [= <-].
    intros [? | ?]; done.
  - repeat split; try done.
  - repeat split; try done. intros [? | ?]; done.
Qed.

Lemma entity_lines_shape lines :
  Forall (fun entity => ∀ c rest, entity = c :: rest -> c ∉ entity_bullets)
         (entity_lines lines) ∧
  length (entity_lines lines) <= length lines.
Proof.
  unfold entity_lines. split.
  - apply Forall_forall. intros entity Hentity.
    apply list_elem_of_fmap in Hentity as (line & -> & _).
    intros c rest Heq. unfold lstrip_chars in Heq.
    destruct (dropwhile_head (fun c => bool_decide (c ∈ entity_bullets))
                (strip line)) as [Hnil | (c' & t & Hd & Hc')].
    + by rewrite Hnil in Heq.
    + rewrite Hd in Heq. injection Heq as -> ->.
      by apply bool_decide_eq_false in Hc'.
  - rewrite length_map. apply length_filter.
Qed.

(** X20: at most twenty entities come back, none of them starts with a bullet
    character or a space, and a failed or empty reply gives none. *)
Theorem key_entities_result (generate_content : client) (text : pystr) :
  let entities := extract_key_entities generate_content text in
  length entities <= 20 ∧
  Forall (fun entity => ∀ c rest, entity = c :: rest -> c ∉ entity_bullets)
         entities ∧
  entities = extract_key_entities generate_content (slice_to 4000 text) ∧
  ((∃ e, generate_content (entities_prompt text) = Raise e) ∨
   generate_content (entities_prompt text) = Ok None ∨
   generate_content (entities_prompt text) = Ok (Some []) ->
   entities = []).
Proof.
  assert (Hprompt : entities_prompt (slice_to 4000 text) = entities_prompt text).
  { unfold entities_prompt, slice_to. by rewrite take_take, Nat.min_id. }
  cbv zeta. unfold extract_key_entities. rewrite Hprompt.
  destruct (generate_content (entities_prompt text)) as [[[|c reply]|]|e];
    try (split; [simpl; lia |]; split; [constructor |]; split; done).
  split; [rewrite length_take; lia |].
  split; [apply Forall_take, entity_lines_shape |].
  split; [done |]. intros [[e ?] | [? | ?]]; done.
Qed.

End Prompts.

(** ** The pages and the table *)

Section AnalysisRunFrame.
Context `{Platform}.
Import GeminiAnalyzer App Pages.

(** X21: A run touches the selected row only, and of that row the analysis
    only; afterwards the row counts as analyzed.  With an id that is not in
    the table nothing happens. *)
Theorem analyze_button_frame (generate_content : client) (now : pystr)
    (db : gmap Z document) (doc_id : Z) (analysis_type level : pystr)
    (entities risks timeline : bool) :
  let db' := analyze_button generate_content now db doc_id analysis_type level
                            entities risks timeline in
  (∀ other, other ≠ doc_id -> db' !! other = db !! other) ∧
  (db !! doc_id = None -> db' = db) ∧
  (∀ doc, db !! doc_id = Some doc ->
     ∃ doc', db' !! doc_id = Some doc' ∧
       filename doc' = filename doc ∧ file_type doc' = file_type doc ∧
       upload_date doc' = upload_date doc ∧ content doc' = content doc ∧
       is_analyzed doc' = true).
Proof.
  cbv zeta. unfold analyze_button.
  split; [| split].
  - intros other Hother. destruct (db !! doc_id); [| done].
    unfold update_analysis. by rewrite lookup_alter_ne.
  - by intros ->.
  - intros doc Hdoc. rewrite Hdoc. unfold update_analysis.
    rewrite lookup_alter_eq, Hdoc. simpl. by eexists.
Qed.

(** X22: what a run stores does not depend on what was stored before: nothing of
    an earlier record survives. *)
Theorem reanalysis_forgets_earlier_record (generate_content : client)
    (now : pystr) (db : gmap Z document) (doc_id : Z) (doc : document)
    (earlier earlier' : option analysis_column)
    (analysis_type level : pystr) (entities risks timeline : bool) :
  analyze_button generate_content now (<[doc_id := with_analysis doc earlier]> db)
                 doc_id analysis_type level entities risks timeline
  = analyze_button generate_content now (<[doc_id := with_analysis doc earlier']> db)
                   doc_id analysis_type level entities risks timeline.
Proof.
  unfold analyze_button, update_analysis.
  by rewrite !lookup_insert_eq, !alter_insert_eq.
Qed.

(** X23: after a run, failed or not, the document is no longer offered under
    "New Analysis". *)
Theorem analyzed_document_not_offered (generate_content : client) (now : pystr)
    (db : gmap Z document) (doc_id : Z) (analysis_type level : pystr)
    (entities risks timeline : bool) (all_documents : list (Z * document)) :
  is_Some (db !! doc_id) ->
  (∀ row, row ∈ all_documents ->
     analyze_button generate_content now db doc_id analysis_type level
                    entities risks timeline !! fst row = Some (snd row)) ->
  ∀ row, row ∈ unanalyzed all_documents -> fst row ≠ doc_id.
Proof.
  intros [doc Hdoc] Hrows row Hrow Hid.
  apply list_elem_of_filter in Hrow as [Hpending Hin].
  specialize (Hrows row Hin). rewrite Hid in Hrows.
  rewrite (analyze_button_stores _ _ _ _ _ _ _ _ _ _ Hdoc) in Hrows.
  injection Hrows as Hrow. rewrite <- Hrow in Hpending. done.
Qed.

End AnalysisRunFrame.

Section Table.
Import App Database.

(** X24: A stored document gets an id that was never in use, can be read back
    under it as it was stored, and leaves the other rows alone. *)
Theorem store_document_round_trip (now : pystr) (db db' : database)
    (filename content file_type : pystr) (analysis : option analysis_column)
    (doc_id : Z) :
  counted db ->
  store_document now db filename content analysis file_type = (Some doc_id, db') ->
  table db !! doc_id = None ∧
  (sqlite_sequence db < doc_id)%Z ∧
  get_document_by_id db' doc_id
  = Some (doc_id, {| App.filename := filename; App.file_type := file_type;
                     upload_date := now; App.content := content;
                     App.analysis := analysis |}) ∧
  (∀ other, other ≠ doc_id ->
     get_document_by_id db' other = get_document_by_id db other) ∧
  counted db'.
Proof.
  intros [Hseq Hcounted]. unfold store_document.
  case_bool_decide as Hroom; [| done]. intros [= <- <-].
  assert (Hfresh : table db !! (sqlite_sequence db + 1)%Z = None).
  { destruct (table db !! (sqlite_sequence db + 1)%Z) eqn:Hrow; [| done].
    assert (Hs : is_Some (table db !! (sqlite_sequence db + 1)%Z)) by by eexists.
    apply Hcounted in Hs. lia. }
  split; [done |]. split; [lia |].
  unfold get_document_by_id. simpl. split; [by rewrite lookup_insert_eq |].
  split.
  - intros other Hother. by rewrite lookup_insert_ne.
  - split; [simpl; lia |]. intros id. simpl. rewrite lookup_insert.
    case_decide as Hid; [subst; intros _; lia |].
    intros Hs. apply Hcounted in Hs. lia.
Qed.

End Table.

Section TableDelete.
Import App Database.

(** X25: deleting reports whether the row existed, removes it and nothing else,
    and does not give its id back: the next document stored gets the id it
    would have got without the deletion. *)
Theorem delete_document_spec (now : pystr) (db : database) (doc_id : Z)
    (filename content file_type : pystr) (analysis : option analysis_column) :
  let deleted := fst (delete_document db doc_id) in
  let db' := snd (delete_document db doc_id) in
  (deleted = true ↔ is_Some (get_document_by_id db doc_id)) ∧
  get_document_by_id db' doc_id = None ∧
  (∀ other, other ≠ doc_id ->
     get_document_by_id db' other = get_document_by_id db other) ∧
  (counted db -> counted db') ∧
  fst (store_document now db' filename content analysis file_type)
  = fst (store_document now db filename content analysis file_type).
Proof.
  cbv zeta. unfold delete_document, get_document_by_id. simpl.
  split; [| split; [| split; [| split]]].
  - rewrite bool_decide_eq_true.
    destruct (table db !! doc_id); split; intros Hs; try done;
      by destruct Hs.
  - by rewrite lookup_delete_eq.
  - intros other Hother. by rewrite lookup_delete_ne.
  - intros [Hseq Hcounted]. split; [done |]. simpl. intros id Hs.
    apply Hcounted. rewrite lookup_delete in Hs. by case_decide.
  - unfold store_document. simpl. by case_bool_decide.
Qed.

End TableDelete.

Section UploadPage.
Context `{Platform}.
Import DocumentProcessor App Database Pages.

Lemma extract_from_pdf_same_file w : same_file w (snd (_extract_from_pdf w)).
Proof.
  unfold _extract_from_pdf, try_except, bind, lift, read, ret, raise.
  cbv beta match zeta.
  destruct (PdfReader _) as [pages|e]; cbv beta match zeta; [| done].
  by destruct (pages_text pages []).
Qed.

Lemma extract_from_docx_same_file w : same_file w (snd (_extract_from_docx w)).
Proof.
  unfold _extract_from_docx, try_except, bind, lift, read, ret, raise.
  cbv beta match zeta.
  by destruct (Document _).
Qed.

Lemma extract_text_same_file w : same_file w (snd (extract_text w)).
Proof.
  assert (Hbody : same_file w (snd (extract_text_body w))).
  { destruct (decide (uf_type (upload w) ∈ supported_types)) as [Hin | Hout].
    - destruct (extract_text_body_cases w Hin) as [-> | [-> | ->]].
      + apply extract_from_pdf_same_file.
      + apply extract_from_docx_same_file.
      + destruct (extract_from_txt_total w) as (t & -> & _). done.
    - by rewrite extract_text_body_unsupported. }
  unfold extract_text, try_except.
  by destruct (extract_text_body w) as [[t|e] w1].
Qed.

(** X26: the upload page stores a document only when extraction gave text that
    is not blank; what it stores is that text, trimmed and not empty, under
    the file's name and type, with the next id and not yet analyzed.  A file
    of an undeclared type is never stored. *)
Theorem upload_page_stores_extracted_text (now : pystr) (w : world)
    (db : database) :
  let db' := snd (upload_page now w db) in
  (db' = db ∨
   ∃ text,
     fst (extract_text w) = Ok text ∧ text ≠ [] ∧ strip text = text ∧
     sqlite_sequence db' = (sqlite_sequence db + 1)%Z ∧
     table db'
     = <[(sqlite_sequence db + 1)%Z :=
          {| filename := uf_name (upload w); file_type := uf_type (upload w);
             upload_date := now; content := text;
             analysis := Some Uploaded |}]> (table db)) ∧
  (uf_type (upload w) ∉ supported_types -> db' = db).
Proof.
  cbv zeta. unfold upload_page.
  pose proof (extract_text_same_file w) as (Hname & Htype & _).
  destruct (extract_text w) as [[text|e] w'] eqn:Hrun; simpl in *.
  2:{ split; [by left | done]. }
  assert (Hstripped : strip text = text).
  { revert Hrun. unfold extract_text, try_except.
    destruct (extract_text_body w) as [[t|e] w1] eqn:Hbody.
    - intros [= <- _]. by apply (extract_text_body_stripped _ _ _ Hbody).
    - unfold bind, st_error, ret. by intros [= <- _]. }
  rewrite Hstripped.
  destruct text as [|c text]; simpl; [split; [by left | done] |].
  split.
  - unfold store_document. case_bool_decide; simpl; [| by left].
    right. exists (c :: text). rewrite Hname, Htype. done.
  - intros Hout. exfalso.
    pose proof (extract_text_caught _ _ _ (extract_text_body_unsupported w Hout))
      as Hnil.
    rewrite Hrun in Hnil. done.
Qed.

End UploadPage.

(** ** Instances of the properties above *)

Section StructurerInstances.
Import GeminiAnalyzer.

Lemma parse_ascii_reply_total_witness :
  ascii_text three_section_reply ∧
  ∃ r, _parse_analysis_response three_section_reply lease_text = Ok r.
Proof.
  assert (Hascii : ascii_text three_section_reply).
  { apply (bool_decide_unpack _). vm_compute. exact I. }
  split; [exact Hascii |].
  exact (parse_ascii_reply_total three_section_reply lease_text Hascii).
Defined.

Lemma insights_digit_refused_witness :
  _process_section (H := sample_platform) (initial_result []) Insights
    ([] ++ (lit "Complexity: " ++ 178%N :: lit "/10") :: [])
  = Raise (PyValueError
             (lit "invalid literal for int() with base 10: '" ++ [178%N] ++ lit "'")).
Proof.
  apply (insights_digit_refused (H := sample_platform) _ [] [] ∅).
  - reflexivity.
  - vm_compute. reflexivity.
  - apply (bool_decide_unpack _). vm_compute. exact I.
  - vm_compute. reflexivity.
  - vm_compute. reflexivity.
Defined.

(** With such a reply the whole run fails. *)
Example superscript_reply_fails :
  analyze_document (H := sample_platform)
    (fun _ => Ok (Some (lit "Legal Insights" ++ [newline]
                        ++ lit "Complexity: " ++ 178%N :: lit "/10")))
    lease_text (lit "Summary Only") (lit "Basic")
  = failed_analysis
      (PyValueError
         (lit "invalid literal for int() with base 10: '" ++ [178%N] ++ lit "'")).
Proof. vm_compute. reflexivity. Qed.

Lemma preamble_ignored_witness :
  parse_response_lines ([lit "Here is my analysis:"] ++ three_section_lines)
                       three_section_reply lease_text
  = parse_response_lines three_section_lines three_section_reply lease_text.
Proof.
  apply preamble_ignored.
  - constructor; [vm_compute; reflexivity | constructor].
  - right. eexists _, _. split; [reflexivity |]. vm_compute. discriminate.
Defined.

Lemma headerless_reply_is_empty_witness :
  _parse_analysis_response (lit "The document is a lease.") lease_text
  = Ok (set_insights (initial_result (lit "The document is a lease."))
                     (_generate_basic_insights lease_text)).
Proof.
  apply headerless_reply_is_empty.
  constructor; [vm_compute; reflexivity | constructor].
Defined.

Lemma parse_keeps_reply_witness :
  ∃ r, _parse_analysis_response three_section_reply lease_text = Ok r ∧
       raw_analysis r = Some three_section_reply ∧ error r = None.
Proof.
  destruct (_parse_analysis_response three_section_reply lease_text)
    as [r|e] eqn:Hrun.
  - exists r. split; [reflexivity |].
    destruct (parse_keeps_reply _ _ _ Hrun) as (Hraw & Herr & _). by split.
  - vm_compute in Hrun. discriminate.
Defined.

Lemma analyze_document_error_key_witness :
  analyze_document silent_service lease_text (lit "Summary Only") (lit "Basic")
  = failed_analysis (PyException (lit "Empty response from Gemini API")).
Proof.
  apply (analyze_document_error_key silent_service lease_text
           (lit "Summary Only") (lit "Basic")).
  vm_compute. reflexivity.
Defined.

Lemma listed_items_shape_witness :
  ∃ r, _process_section (initial_result []) KeyPoints
         [lit "- Rent is due monthly"; lit "2. Deposit of 500"] = Ok r ∧
       key_points r = [lit "Rent is due monthly"; lit "Deposit of 500"] ∧
       Forall (fun p => p ≠ [] ∧ strip p = p) (key_points r).
Proof.
  destruct (_process_section (initial_result []) KeyPoints
              [lit "- Rent is due monthly"; lit "2. Deposit of 500"])
    as [r|e] eqn:Hrun.
  - exists r. split; [reflexivity |].
    split; [vm_compute in Hrun; by injection Hrun as <- |].
    exact (proj1 (proj1 (listed_items_shape _ _ _) Hrun)).
  - vm_compute in Hrun. discriminate.
Defined.

Lemma extracted_insights_shape_witness :
  ∃ r, _process_section (initial_result []) Insights
         [lit "Tone: formal"; fixture] = Ok r ∧
       ∀ key v, insights r !! key = Some v ->
         key ∈ ["complexity_score"; "legal_areas"; "sentiment"]%string.
Proof.
  destruct (_process_section (initial_result []) Insights
              [lit "Tone: formal"; fixture]) as [r|e] eqn:Hrun.
  - exists r. split; [reflexivity |].
    exact (proj1 (extracted_insights_shape _ _ _ Hrun)).
  - vm_compute in Hrun. discriminate.
Defined.

(** "10/10" is read as 1. *)
Lemma complexity_score_is_first_digit_of_last_match_witness :
  ∃ r, _process_section (initial_result []) Insights
         ([lit "Complexity 3"] ++ (lit "Complexity: " ++ 49%N :: lit "0/10")
            :: [lit "Tone: formal"]) = Ok r ∧
       insights r !! "complexity_score" = Some (VInt (Z.of_N 49 - 48)) ∧
       (0 <= Z.of_N 49 - 48 <= 9)%Z.
Proof.
  apply (complexity_score_is_first_digit_of_last_match _ [lit "Complexity 3"]
           [lit "Tone: formal"] {["complexity_score" := VInt 3]}).
  - vm_compute. reflexivity.
  - vm_compute. reflexivity.
  - apply (bool_decide_unpack _). vm_compute. exact I.
  - reflexivity.
  - reflexivity.
  - constructor; [vm_compute; reflexivity | constructor].
Defined.

Lemma document_summary_result_witness :
  get_document_summary silent_service lease_text = lit "Summary not available".
Proof.
  apply (document_summary_result silent_service lease_text).
  right. reflexivity.
Defined.

Lemma key_entities_result_witness :
  extract_key_entities listing_service lease_text
  = [lit "Acme Ltd"; lit "1 May 2024"] ∧
  extract_key_entities unreachable_service lease_text = [].
Proof.
  split; [vm_compute; reflexivity |].
  apply (key_entities_result unreachable_service lease_text).
  left. eexists. reflexivity.
Defined.

(** A line of bullets only gives an empty entity. *)
Example empty_entity :
  extract_key_entities (fun _ => Ok (Some (lit "- *"))) lease_text = [[]].
Proof. vm_compute. reflexivity. Qed.

End StructurerInstances.

Section PageInstances.
Import DocumentProcessor GeminiAnalyzer App Database Pages.

Lemma analyze_button_frame_witness :
  one_document !! 1%Z = Some lease_document ∧
  ∃ doc',
    analyze_button silent_service (lit "2024-02-01 12:00:00") one_document 1
      (lit "Risk Assessment") (lit "Expert") true true false !! 1%Z = Some doc' ∧
    content doc' = lease_text ∧ is_analyzed doc' = true.
Proof.
  assert (Hdoc : one_document !! 1%Z = Some lease_document) by reflexivity.
  split; [exact Hdoc |].
  destruct (analyze_button_frame silent_service (lit "2024-02-01 12:00:00")
              one_document 1 (lit "Risk Assessment") (lit "Expert")
              true true false) as (_ & _ & Hrow).
  destruct (Hrow _ Hdoc) as (doc' & Hdoc' & _ & _ & _ & Hcontent & Hdone).
  exists doc'. split; [exact Hdoc' |]. split; [exact Hcontent | exact Hdone].
Defined.

Lemma analyzed_document_not_offered_witness :
  is_Some (one_document !! 1%Z) ∧
  ∀ row,
    row ∈ unanalyzed (map_to_list
      (analyze_button unreachable_service (lit "2024-02-01 12:00:00")
         one_document 1 (lit "Risk Assessment") (lit "Expert") true true false)) ->
    fst row ≠ 1%Z.
Proof.
  assert (Hdoc : is_Some (one_document !! 1%Z)) by (eexists; reflexivity).
  split; [exact Hdoc |].
  apply (analyzed_document_not_offered unreachable_service
           (lit "2024-02-01 12:00:00") one_document 1 (lit "Risk Assessment")
           (lit "Expert") true true false _ Hdoc).
  intros [doc_id doc] Hrow. by apply elem_of_map_to_list in Hrow.
Defined.

Lemma store_document_round_trip_witness :
  counted init_database ∧
  get_document_by_id
    (snd (store_document (lit "2024-01-05 09:59:00") init_database
            (lit "lease.txt") lease_text (Some Uploaded) (lit "text/plain"))) 1
  = Some (1%Z, {| filename := lit "lease.txt"; file_type := lit "text/plain";
                  upload_date := lit "2024-01-05 09:59:00";
                  content := lease_text; analysis := Some Uploaded |}).
Proof.
  assert (Hcounted : counted init_database).
  { split; [simpl; lia |]. intros doc_id [doc Hdoc]. done. }
  split; [exact Hcounted |].
  apply (store_document_round_trip (lit "2024-01-05 09:59:00") init_database _
           (lit "lease.txt") lease_text (lit "text/plain") (Some Uploaded) 1
           Hcounted).
  reflexivity.
Defined.

Lemma delete_document_spec_witness :
  get_document_by_id
    (snd (delete_document {| table := one_document; sqlite_sequence := 1 |} 1)) 1
  = None ∧
  fst (store_document (lit "2024-02-01 12:00:00")
         (snd (delete_document {| table := one_document; sqlite_sequence := 1 |} 1))
         (lit "will.txt") lease_text (Some Uploaded) (lit "text/plain"))
  = Some 2%Z.
Proof.
  destruct (delete_document_spec (lit "2024-02-01 12:00:00")
              {| table := one_document; sqlite_sequence := 1 |} 1
              (lit "will.txt") lease_text (lit "text/plain") (Some Uploaded))
    as (_ & Hgone & _ & _ & Hnext).
  split; [exact Hgone |]. rewrite Hnext. reflexivity.
Defined.

Lemma upload_page_stores_extracted_text_witness :
  (uf_type (upload png_upload) ∉ supported_types) ∧
  snd (upload_page (lit "2024-01-05 09:59:00") png_upload init_database)
  = init_database.
Proof.
  assert (Htype : uf_type (upload png_upload) ∉ supported_types).
  { apply (bool_decide_unpack _). vm_compute. exact I. }
  split; [exact Htype |].
  exact (proj2 (upload_page_stores_extracted_text _ png_upload init_database)
               Htype).
Defined.

(** A text file is stored with its trimmed text and waits for analysis. *)
Example upload_page_text :
  let db := snd (upload_page (lit "2024-01-05 09:59:00") text_upload init_database) in
  get_document_by_id db 1
  = Some (1%Z, {| filename := lit "lease.txt"; file_type := lit "text/plain";
                  upload_date := lit "2024-01-05 09:59:00";
                  content := lit "A lease"; analysis := Some Uploaded |}) ∧
  unanalyzed (map_to_list (table db)) = map_to_list (table db).
Proof. split; vm_compute; reflexivity. Qed.

End PageInstances.

(** ** The upload page and the size limit *)

Section UploadWithoutValidation.
Context `{Platform}.
Import DocumentProcessor App Database Pages.

(** The declared size plays no part in extraction. *)
Lemma extract_text_with_size size w :
  extract_text (with_size size w)
  = (fst (extract_text w), with_size size (snd (extract_text w))).
Proof.
  unfold extract_text, try_except, extract_text_body, bind, get_type.
  cbn [with_size upload uf_type].
  destruct (str_eqb (uf_type (upload w)) (lit "application/pdf")).
  { unfold _extract_from_pdf, try_except, bind, read, lift, ret, raise, st_error.
    cbn. destruct (PdfReader _) as [pages|e]; cbn; [| done].
    by destruct (pages_text pages []). }
  destruct (bool_decide _).
  { unfold _extract_from_docx, try_except, bind, read, lift, ret, raise, st_error.
    cbn. by destruct (Document _). }
  destruct (str_eqb (uf_type (upload w)) (lit "text/plain")); [| done].
  unfold _extract_from_txt, try_except, bind, read, ret, raise, st_error.
  cbn -[try_encodings]. by destruct (try_encodings _ _).
Qed.

(** Nor in what the page stores. *)
Lemma upload_page_ignores_size now size w db :
  snd (upload_page now (with_size size w) db) = snd (upload_page now w db).
Proof.
  unfold upload_page. rewrite extract_text_with_size.
  destruct (extract_text w) as [[text|e] w']; cbn [fst snd]; [| done].
  by destruct (negb _).
Qed.

End UploadWithoutValidation.

Section OversizeUpload.
Import DocumentProcessor App Database Pages.

Lemma forallb_repeat {A} (f : A -> bool) x n :
  f x = true -> forallb f (repeat x n) = true.
Proof. intros Hx. induction n as [|n IH]; [done |]. simpl. by rewrite Hx. Qed.

Lemma strip_letters n : strip (repeat 97%N n) = repeat 97%N n.
Proof.
  destruct n as [|n]; [done |].
  assert (Hw : is_word (repeat 97%N (S n))).
  { split; [done |]. apply Forall_forall. intros c Hc.
    apply list_elem_of_In, repeat_spec in Hc. by subst. }
  unfold strip.
  rewrite <- (app_nil_r (repeat 97%N (S n))) at 1.
  rewrite (lstrip_word_app _ [] Hw), app_nil_r.
  apply (rstrip_app_word [] _ Hw).
Qed.

Lemma extract_text_letters size :
  extract_text (sized_text_upload size)
  = (Ok (repeat 97%N (N.to_nat size)), after_read (sized_text_upload size)).
Proof.
  apply extract_text_passed. rewrite extract_text_body_txt by done.
  destruct (extract_from_txt_total (sized_text_upload size)) as (text & -> & _ & ->).
  do 2 f_equal. unfold unread, sized_text_upload.
  cbn [upload uf_pos uf_bytes drop try_encodings bytes_decode ascii_platform].
  rewrite drop_0, forallb_repeat by done. apply strip_letters.
Qed.

Lemma upload_page_letters now size :
  (0 < size)%N ->
  snd (upload_page now (sized_text_upload size) init_database)
  = {| table := {[ 1%Z := {| filename := lit "big.txt";
                             file_type := lit "text/plain";
                             upload_date := now;
                             content := repeat 97%N (N.to_nat size);
                             analysis := Some Uploaded |} ]};
       sqlite_sequence := 1 |}.
Proof.
  intros Hsize. unfold upload_page. rewrite extract_text_letters.
  rewrite strip_letters.
  destruct (N.to_nat size) as [|n] eqn:Hn; [lia |].
  reflexivity.
Qed.

Lemma bytes_read_letters size :
  bytes_read (sized_text_upload size) (snd (extract_text (sized_text_upload size)))
  = N.to_nat size.
Proof.
  rewrite extract_text_letters. unfold bytes_read, after_read, read, sized_text_upload.
  cbn [snd upload uf_pos uf_bytes]. rewrite repeat_length. lia.
Qed.

(** A text file above the limit goes through the page. *)
Lemma oversize_text_upload now (size : N) :
  (50 * 1024 * 1024 < Z.of_N size)%Z ->
  (Z.of_N size < overflow_size)%Z ->
  let big := sized_text_upload size in
  Z.of_nat (length (uf_bytes (upload big))) = uf_size (upload big) ∧
  validate_file big
  = (Ok (false, lit "File size (" ++ format_1f (size_mb_of (Z.of_N size))
                ++ lit " MB) exceeds limit of 50 MB"), big) ∧
  fst (extract_text big) = Ok (uf_bytes (upload big)) ∧
  bytes_read big (snd (extract_text big)) = length (uf_bytes (upload big)) ∧
  snd (upload_page now big init_database)
  = {| table := {[ 1%Z := {| filename := lit "big.txt";
                             file_type := lit "text/plain";
                             upload_date := now;
                             content := uf_bytes (upload big);
                             analysis := Some Uploaded |} ]};
       sqlite_sequence := 1 |}.
Proof.
  intros Hlarge Hfloat big. subst big.
  split.
  { unfold sized_text_upload. cbn [upload uf_bytes uf_size].
    rewrite repeat_length. apply N_nat_Z. }
  split.
  { destruct (validate_file_decides (sized_text_upload size))
      as (Hsame & _ & _ & Hreject & _).
    rewrite (surjective_pairing (validate_file _)), Hsame.
    rewrite Hreject; [reflexivity | | |].
    - unfold supported_types. rewrite !elem_of_cons.
      right. right. right. by left.
    - unfold sized_text_upload. cbn [upload uf_size]. lia.
    - exact Hlarge. }
  split; [by rewrite extract_text_letters |].
  split.
  { rewrite bytes_read_letters. unfold sized_text_upload.
    cbn [upload uf_bytes]. by rewrite repeat_length. }
  apply upload_page_letters. lia.
Qed.

(** C8 on the code: [validate_file] has the 50 MB limit, and the upload page
    never asks it.  A text file of 60 MB, which [validate_file] would
    reject, is read to its last byte and stored; whatever the declared size,
    the page stores the same. *)
Theorem oversize_upload_is_stored :
  let big := sized_text_upload sixty_mb in
  let now := lit "2024-01-05 09:59:00" in
  (uf_size (upload big) = 60 * 1024 * 1024)%Z ∧
  (50 * 1024 * 1024 < uf_size (upload big))%Z ∧
  Z.of_nat (length (uf_bytes (upload big))) = uf_size (upload big) ∧
  validate_file big
  = (Ok (false, lit "File size (" ++ format_1f (size_mb_of (Z.of_N sixty_mb))
                ++ lit " MB) exceeds limit of 50 MB"), big) ∧
  fst (extract_text big) = Ok (uf_bytes (upload big)) ∧
  bytes_read big (snd (extract_text big)) = length (uf_bytes (upload big)) ∧
  snd (upload_page now big init_database)
  = {| table := {[ 1%Z := {| filename := lit "big.txt";
                             file_type := lit "text/plain";
                             upload_date := now;
                             content := uf_bytes (upload big);
                             analysis := Some Uploaded |} ]};
       sqlite_sequence := 1 |} ∧
  (∀ size w db,
     snd (upload_page now (with_size size w) db) = snd (upload_page now w db)).
Proof.
  intros big now.
  split; [reflexivity |]. split; [reflexivity |].
  pose proof (oversize_text_upload now sixty_mb eq_refl eq_refl)
    as (Hsize & Hreject & Htext & Hread & Hstored).
  split; [exact Hsize |]. split; [exact Hreject |]. split; [exact Htext |].
  split; [exact Hread |]. split; [exact Hstored |].
  intros size w db. apply upload_page_ignores_size.
Qed.

End OversizeUpload.
